(** * einstein: the STL generator for the "einstein hat" monotile

    A shallow embedding of [einstein.go] and the properties of its
    geometric core.

    Numbers.  Go's [float64] is IEEE 754 binary64, which is what Rocq's
    primitive [float] is, so the arithmetic of the program is modelled
    operation for operation: [+ - * /] and [math.Sqrt] are the correctly
    rounded primitives, every operation rounds on its own, and
    comparisons are the IEEE ones (false on NaN).  Rounding every
    operation on its own is what the compiler does on amd64 by default;
    Go lets a compiler fuse a product with a sum or a difference, which
    changes a difference of two products [a*b - c*d] in the last place.
    The properties of degenerate facets therefore never use that
    [a*b - b*a] is zero.

    Library calls.  [math.Sin], [math.Cos] and the verb [%.6e] of [fmt]
    are parameters; what is assumed of them is stated where it is used,
    and a reference implementation shows that each assumption has a
    model.

    Errors.  [log.Fatal] is modelled as the error result [Fatal], which
    carries the message handed to [log.Fatal]. *)

From Stdlib Require Import Floats ZArith List String Ascii Bool Lia Setoid.
From Stdlib Require DecimalString.
Import ListNotations.

(* Decimal literals denote the nearest binary64 value, as in Go. *)
#[global] Set Warnings "-inexact-float".

(** ** Results of code that may call [log.Fatal] *)

Inductive result (A : Type) : Type :=
| Ok (a : A)
| Fatal (msg : string).
Arguments Ok {A} a.
Arguments Fatal {A} msg.

Definition bind {A B : Type} (r : result A) (k : A -> result B) : result B :=
  match r with
  | Ok a => k a
  | Fatal msg => Fatal msg
  end.

Definition is_fatal {A : Type} (r : result A) : bool :=
  match r with Ok _ => false | Fatal _ => true end.

(** ** Scalars

    The primitives ([Point], [Facet], [Quad], [Box]) only add, subtract,
    multiply, divide and take square roots.  They are written over these
    five operations; the program is the [float] instance. *)

Class Scalar (T : Type) : Type := {
  sadd : T -> T -> T;
  ssub : T -> T -> T;
  smul : T -> T -> T;
  sdiv : T -> T -> T;
  ssqrt : T -> T
}.

Declare Scope scalar_scope.
Delimit Scope scalar_scope with sc.
Infix "+" := sadd : scalar_scope.
Infix "-" := ssub : scalar_scope.
Infix "*" := smul : scalar_scope.
Infix "/" := sdiv : scalar_scope.

#[global] Instance float_Scalar : Scalar float := {
  sadd := PrimFloat.add;
  ssub := PrimFloat.sub;
  smul := PrimFloat.mul;
  sdiv := PrimFloat.div;
  ssqrt := PrimFloat.sqrt
}.

(** ** Point, Facet, Quad, Box *)

Section Primitives.
Context {T : Type} `{Scalar T}.

(** [type Point struct { x, y, z float64 }] *)
Record Point : Type := mkPoint { x : T; y : T; z : T }.

(** [type Facet [3]Point] *)
Record Facet : Type := mkFacet { f0 : Point; f1 : Point; f2 : Point }.

(** [type Quad [4]Point] *)
Record Quad : Type := mkQuad { q0 : Point; q1 : Point; q2 : Point; q3 : Point }.

(** [type Box [2]Quad]: index 0 and index 1. *)
Record Box : Type := mkBox { b0 : Quad; b1 : Quad }.

(** [q[i]] for an index known to be smaller than 4. *)
Definition Quad_at (q : Quad) (i : nat) : Point :=
  match i with
  | 0 => q0 q
  | 1 => q1 q
  | 2 => q2 q
  | _ => q3 q
  end.

Definition Point_sub (p q : Point) : Point :=
  mkPoint (x p - x q)%sc (y p - y q)%sc (z p - z q)%sc.

(** The cross product [(nx, ny, nz)] that [Normal] computes before it
    normalises. *)
Definition Facet_cross (f : Facet) : Point :=
  let u := Point_sub (f1 f) (f0 f) in
  let v := Point_sub (f2 f) (f0 f) in
  let nx := (y u * z v - z u * y v)%sc in
  let ny := (z u * x v - x u * z v)%sc in
  let nz := (x u * y v - y u * x v)%sc in
  mkPoint nx ny nz.

Definition Facet_Normal (f : Facet) : Point :=
  let n := Facet_cross f in
  let nx := x n in
  let ny := y n in
  let nz := z n in
  let norm := ssqrt (nx * nx + ny * ny + nz * nz)%sc in
  mkPoint (nx / norm)%sc (ny / norm)%sc (nz / norm)%sc.

(** [Quad.Facets] returns a [[2]Facet]: a pair. *)
Definition Quad_Facets (q : Quad) : Facet * Facet :=
  (mkFacet (q0 q) (q1 q) (q2 q), mkFacet (q2 q) (q3 q) (q0 q)).

Definition NewQuad (c0 c1 c2 c3 c4 c5 c6 c7 c8 c9 c10 c11 : T) : Quad :=
  let p0 := mkPoint c0 c1 c2 in
  let p1 := mkPoint c3 c4 c5 in
  let p2 := mkPoint c6 c7 c8 in
  let p3 := mkPoint c9 c10 c11 in
  mkQuad p0 p1 p2 p3.

(** [Box.Facets] returns a [[12]Facet]: the list of its twelve entries
    in index order.  The two locals are named as in the source: [top]
    is [b[0]] and [bot] is [b[1]]. *)
Definition Box_Facets (b : Box) : list Facet :=
  let top := b0 b in
  let bot := b1 b in
  let tmp0 := Quad_Facets top in
  let tmp1 := Quad_Facets bot in
  let tmp2 := Quad_Facets (mkQuad (q0 bot) (q3 bot) (q1 top) (q0 top)) in
  let tmp3 := Quad_Facets (mkQuad (q3 bot) (q2 bot) (q2 top) (q1 top)) in
  let tmp4 := Quad_Facets (mkQuad (q2 bot) (q1 bot) (q3 top) (q2 top)) in
  let tmp5 := Quad_Facets (mkQuad (q1 bot) (q0 bot) (q0 top) (q3 top)) in
  [ fst tmp0; snd tmp0;
    fst tmp1; snd tmp1;
    fst tmp2; snd tmp2;
    fst tmp3; snd tmp3;
    fst tmp4; snd tmp4;
    fst tmp5; snd tmp5 ].
End Primitives.

Arguments Point T : clear implicits.
Arguments Facet T : clear implicits.
Arguments Quad T : clear implicits.
Arguments Box T : clear implicits.

(** ** The orientation check of [NewBox] *)

Open Scope float_scope.

Definition bad_bottom_normal : string := "bad bottom normal".
Definition bad_top_normal : string := "bad top normal".

(** The Z component of the normal of [q.Facets()[0]]. *)
Definition first_normal_z (q : Quad float) : float :=
  z (Facet_Normal (fst (Quad_Facets q))).

(** [NewBox]: [n >= 0] is the IEEE comparison [0 <= n]. *)
Definition NewBox (q0 q1 : Quad float) : result (Box float) :=
  if 0 <=? first_normal_z q0 then Fatal bad_bottom_normal
  else if first_normal_z q1 <=? 0 then Fatal bad_top_normal
  else Ok (mkBox q0 q1).

(** ** Package-level constants and the table of placements *)

(** [float64(n)] for an [int] n: the nearest binary64 value. *)
Definition float64_of_int (n : Z) : float :=
  SF2Prim (binary_normalize prec emax n 0 false).

(** [rad = 180 / math.Pi] is a constant expression: Go evaluates it
    exactly and rounds once, to the binary64 value nearest to 180/pi. *)
Definition rad : float := 0x1.ca5dc1a63c1f8p+5.

Definition sqrt3 : float := PrimFloat.sqrt 3.

(** [unit = 12] (mm) and [inset = 0.03] (fraction of a unit). *)
Definition unit : float := 12.
Definition inset : float := 0.03.

(** [type kite struct { pos [2]float64; rot int }] *)
Record kite : Type := mkKite { pos : float * float; rot : Z }.

Definition kites : list kite :=
  [ mkKite (0, 0) (-60);
    mkKite (0, 0) (-120);
    mkKite (0, 0) (-180);
    mkKite (0, 0) (-240);
    mkKite (0, -2 * sqrt3) 60;
    mkKite (0, -2 * sqrt3) 120;
    mkKite (-3, - sqrt3) (-60);
    mkKite (-3, - sqrt3) 0 ].

(** The four footprint vertices [(x0,y0) .. (x3,y3)] that [Kite] carries
    through its stages. *)
Definition vertices : Type :=
  ((float * float) * (float * float) * (float * float) * (float * float))%type.

Definition vertex (v : vertices) (i : nat) : float * float :=
  let '(v0, v1, v2, v3) := v in
  match i with
  | 0 => v0
  | 1 => v1
  | 2 => v2
  | _ => v3
  end.

(** [x, y = x*k, y*k] on every vertex. *)
Definition scale_all (k : float) (v : vertices) : vertices :=
  let '((x0, y0), (x1, y1), (x2, y2), (x3, y3)) := v in
  ((x0 * k, y0 * k), (x1 * k, y1 * k), (x2 * k, y2 * k), (x3 * k, y3 * k)).

(** [x, y = x+dx, y+dy] on every vertex. *)
Definition translate_all (dx dy : float) (v : vertices) : vertices :=
  let '((x0, y0), (x1, y1), (x2, y2), (x3, y3)) := v in
  ((x0 + dx, y0 + dy), (x1 + dx, y1 + dy), (x2 + dx, y2 + dy), (x3 + dx, y3 + dy)).

(** [x, y = x*cos - y*sin, x*sin + y*cos] on every vertex; each operation
    rounds on its own (no fused multiply-add). *)
Definition rotate_all (sin_t cos_t : float) (v : vertices) : vertices :=
  let '((x0, y0), (x1, y1), (x2, y2), (x3, y3)) := v in
  ((x0 * cos_t - y0 * sin_t, x0 * sin_t + y0 * cos_t),
   (x1 * cos_t - y1 * sin_t, x1 * sin_t + y1 * cos_t),
   (x2 * cos_t - y2 * sin_t, x2 * sin_t + y2 * cos_t),
   (x3 * cos_t - y3 * sin_t, x3 * sin_t + y3 * cos_t)).

(** [x0, y0, x1, y1, x2, y2, x3, y3 = -x3, y3, -x2, y2, -x1, y1, -x0, y0] *)
Definition reflect_all (v : vertices) : vertices :=
  let '((x0, y0), (x1, y1), (x2, y2), (x3, y3)) := v in
  ((- x3, y3), (- x2, y2), (- x1, y1), (- x0, y0)).

(** ** The tile builder

    [math.Sin] and [math.Cos] are not part of the repository: they are
    parameters of the development. *)

Section Builder.
Variables Sin Cos : float -> float.

Definition cos30 : float := Cos (30 / rad).
Definition sin30 : float := Sin (30 / rad).

(** First describe the kite. *)
Definition footprint : vertices :=
  ((0, 0), (0, sqrt3), (1, sqrt3), (sqrt3 * cos30, sqrt3 * sin30)).

(** The vertices after deflate, scale, rotate, translate and reflect:
    the values of [x0, y0, .., x3, y3] when the quads are built. *)
Definition Kite_vertices (loc : float * float) (rotationDegrees : Z)
    (inset : float) (reflect : bool) : vertices :=
  let v := footprint in
  let v :=
    if 0 <? inset then
      let deflate := 1 - inset in
      (* Deflate *)
      let v := scale_all deflate v in
      (* Translate *)
      let '(dx, dy) := (inset * sin30, inset * cos30) in
      translate_all dx dy v
    else v in
  (* Scale up to unit size. *)
  let v := scale_all unit v in
  (* Rotate by angle in degrees. *)
  let theta := float64_of_int rotationDegrees / rad in
  let sin_t := Sin theta in
  let cos_t := Cos theta in
  let v := rotate_all sin_t cos_t v in
  (* Translate to destination. *)
  let '(dx, dy) := (fst loc * unit, snd loc * unit) in
  let v := translate_all dx dy v in
  (* Reflect? *)
  if reflect then reflect_all v else v.

Definition Kite (loc : float * float) (rotationDegrees : Z)
    (inset : float) (reflect : bool) : result (Box float) :=
  let '((x0, y0), (x1, y1), (x2, y2), (x3, y3)) :=
    Kite_vertices loc rotationDegrees inset reflect in
  let bot := NewQuad
    x0 y0 0
    x1 y1 0
    x2 y2 0
    x3 y3 0 in
  let height := (0.2 + inset) * unit in
  let top := NewQuad
    x0 y0 height
    x3 y3 height
    x2 y2 height
    x1 y1 height in
  NewBox bot top.
End Builder.

(** ** Index-level descriptions of the side faces

    With [bottom = b[0]] (the quad [NewBox] checks for a downward normal)
    and [top = b[1]] (checked for an upward normal). *)

Section SideQuads.
Context {T : Type}.

(** The side quads as [Box.Facets] builds them: the top is walked
    backwards while the bottom is walked forwards. *)
Definition side_quad (bottom top : Quad T) (i : nat) : Quad T :=
  mkQuad (Quad_at top ((4 - i) mod 4)) (Quad_at top ((3 - i) mod 4))
         (Quad_at bottom ((i + 1) mod 4)) (Quad_at bottom (i mod 4)).

(** The side quads with the same index on both caps:
    [(bottom[i], bottom[i+1 mod 4], top[i+1 mod 4], top[i mod 4])]. *)
Definition side_quad_same_index (bottom top : Quad T) (i : nat) : Quad T :=
  mkQuad (Quad_at bottom (i mod 4)) (Quad_at bottom ((i + 1) mod 4))
         (Quad_at top ((i + 1) mod 4)) (Quad_at top (i mod 4)).

Definition both {A : Type} (p : A * A) : list A := [fst p; snd p].

(** The six quads whose facets [Box.Facets] returns: the two caps and
    the four sides. *)
Definition Box_quads (b : Box T) : list (Quad T) :=
  b0 b :: b1 b :: map (side_quad (b0 b) (b1 b)) (seq 0 4).
End SideQuads.

(** Leibniz equality of points and facets of the program, decided. *)
Definition Point_eqb (p q : Point float) : bool :=
  Leibniz.eqb (x p) (x q) && Leibniz.eqb (y p) (y q) && Leibniz.eqb (z p) (z q).

Definition Facet_eqb (f g : Facet float) : bool :=
  Point_eqb (f0 f) (f0 g) && Point_eqb (f1 f) (f1 g) && Point_eqb (f2 f) (f2 g).

Definition Quad_eqb (p q : Quad float) : bool :=
  Point_eqb (q0 p) (q0 q) && Point_eqb (q1 p) (q1 q) &&
  Point_eqb (q2 p) (q2 q) && Point_eqb (q3 p) (q3 q).

(** A convex quad with small integer coordinates, listed clockwise seen
    from above, and the same outline one unit higher, listed backwards. *)
Definition sample_bottom : Quad float :=
  NewQuad 0 0 0  0 2 0  1 2 0  2 1 0.
Definition sample_top : Quad float :=
  NewQuad 0 0 1  2 1 1  1 2 1  0 2 1.

(** A quad whose first facet has no area. *)
Definition flat_quad : Quad float :=
  NewQuad 0 0 0  0 0 0  0 0 0  1 1 0.

(** ** What is assumed of [math.Sin] and [math.Cos]

    The program only calls them at 30 degrees and at the rotation of a
    placement.  The assumption is that the result lies within two
    units in the last place of the binary64 value nearest to the true
    sine or cosine of the argument. *)

(** The [n] floats above [c] and the [n] floats below it. *)
Fixpoint floats_above (n : nat) (c : float) : list float :=
  match n with
  | O => []
  | S k => next_up c :: floats_above k (next_up c)
  end.

Fixpoint floats_below (n : nat) (c : float) : list float :=
  match n with
  | O => []
  | S k => next_down c :: floats_below k (next_down c)
  end.

Definition ulp_ball (n : nat) (c : float) : list float :=
  c :: floats_above n c ++ floats_below n c.

Definition within_ulps (n : nat) (c v : float) : bool :=
  existsb (Leibniz.eqb v) (ulp_ball n c).

(** An angle in degrees, the binary64 values nearest to its sine and
    cosine (at the binary64 argument [degrees / rad]) and the allowed
    distance from each. *)
Record trig_entry : Type := mkEntry {
  degrees : Z;
  sin_near : float;
  sin_ulps : nat;
  cos_near : float;
  cos_ulps : nat
}.

Definition angle (e : trig_entry) : float :=
  float64_of_int (degrees e) / rad.

Definition accurate_at (Sin Cos : float -> float) (e : trig_entry) : bool :=
  within_ulps (sin_ulps e) (sin_near e) (Sin (angle e)) &&
  within_ulps (cos_ulps e) (cos_near e) (Cos (angle e)).

(** 30 degrees: [sin30] and [cos30]. *)
Definition entry30 : trig_entry :=
  mkEntry 30 0x1.fffffffffffffp-2 2 0x1.bb67ae8584cabp-1 2.

(** The rotations of the table [kites].  At 0 the results are exact; the
    sine of -180 degrees is of the order of 1e-16, where argument
    reduction costs some relative accuracy. *)
Definition trig_table : list trig_entry :=
  [ mkEntry 0 0 0 1 0;
    mkEntry (-60) (-0x1.bb67ae8584caap-1) 2 0x1.0000000000001p-1 2;
    mkEntry (-120) (-0x1.bb67ae8584cabp-1) 2 (-0x1.ffffffffffffcp-2) 2;
    mkEntry (-180) (-0x1.1a62633145c07p-53) 16 (-1) 2;
    mkEntry (-240) 0x1.bb67ae8584ca8p-1 2 (-0x1.0000000000004p-1) 2;
    mkEntry 60 0x1.bb67ae8584caap-1 2 0x1.0000000000001p-1 2;
    mkEntry 120 0x1.bb67ae8584cabp-1 2 (-0x1.ffffffffffffcp-2) 2 ].

Definition entry_for (d : Z) : option trig_entry :=
  find (fun e => Z.eqb (degrees e) d) trig_table.

Definition accurate (Sin Cos : float -> float) : Prop :=
  forallb (accurate_at Sin Cos) (entry30 :: trig_table) = true.

(** A rotation that is not in the table, for the behaviour of [Kite] on
    other inputs. *)
Definition entry_minus1 : trig_entry :=
  mkEntry (-1) (-0x1.1df0b2b89dd1ep-6) 2 0x1.ffec097f5af8ap-1 2.

(** ** A reference math library

    Sine and cosine by octant reduction and two degree-13/12 polynomials
    (the Cephes routines).  It shows that the assumption above has a
    model; no statement about the program depends on it. *)

Module Cephes.
Definition PI4A : float := 7.85398125648498535156e-1.
Definition PI4B : float := 3.77489470793079817668e-8.
Definition PI4C : float := 2.69515142907905952645e-15.
Definition FOPI : float := 0x1.45f306dc9c883p+0. (* 4/pi *)

Definition sin_poly (z zz : float) : float :=
  z + z * zz * ((((((1.58962301576546568060e-10 * zz)
    + (-2.50507477628578072866e-8)) * zz
    + 2.75573136213857245213e-6) * zz
    + (-1.98412698295895385996e-4)) * zz
    + 8.33333333332211858878e-3) * zz
    + (-1.66666666666666307295e-1)).

Definition cos_poly (zz : float) : float :=
  1 - 0.5 * zz + zz * zz * ((((((-1.13585365213876817300e-11 * zz)
    + 2.08757008419747316778e-9) * zz
    + (-2.75573141792967388112e-7)) * zz
    + 2.48015872888517045348e-5) * zz
    + (-1.38888888888730564116e-3)) * zz
    + 4.16666666666665929218e-2).

(** The integer part of a non-negative float. *)
Definition trunc (a : float) : Z :=
  let (m, e) := Z.frexp a in
  Z.shiftl (Uint63.to_Z (normfr_mantissa m)) (e - 53).

(** The octant [j] (made even, modulo 8) and the reduced argument. *)
Definition reduce (a : float) : Z * float :=
  let j := trunc (a * FOPI) in
  let j := if Z.odd j then (j + 1)%Z else j in
  let y := float64_of_int j in
  (Z.land j 7, ((a - y * PI4A) - y * PI4B) - y * PI4C).

Definition sin (a : float) : float :=
  if is_zero a || is_nan a then a
  else if is_infinity a then nan
  else
    let sign := a <? 0 in
    let '(j, z) := reduce (abs a) in
    let sign := if Z.ltb 3 j then negb sign else sign in
    let j := if Z.ltb 3 j then (j - 4)%Z else j in
    let zz := z * z in
    let r := if Z.eqb j 1 || Z.eqb j 2 then cos_poly zz else sin_poly z zz in
    if sign then - r else r.

Definition cos (a : float) : float :=
  if is_nan a || is_infinity a then nan
  else
    let '(j, z) := reduce (abs a) in
    let sign := Z.ltb 3 j in
    let j := if Z.ltb 3 j then (j - 4)%Z else j in
    let sign := if Z.ltb 1 j then negb sign else sign in
    let zz := z * z in
    let r := if Z.eqb j 1 || Z.eqb j 2 then sin_poly z zz else cos_poly zz in
    if sign then - r else r.
End Cephes.

(** ** Checking a property for every admissible sine and cosine

    [Kite] at a rotation of [degrees e] reads [Sin] and [Cos] at two
    arguments only, [angle entry30] and [angle e].  A boolean property of
    the pair of functions that depends on these four values only can be
    decided by running through the four balls. *)

Definition two_point (v30 v : float) : float -> float :=
  fun t => if Leibniz.eqb t (angle entry30) then v30 else v.

Definition all_trig (e : trig_entry)
    (P : (float -> float) -> (float -> float) -> bool) : bool :=
  negb (Leibniz.eqb (angle e) (angle entry30)) &&
  forallb (fun s30 =>
  forallb (fun c30 =>
  forallb (fun s =>
  forallb (fun c => P (two_point s30 s) (two_point c30 c))
    (ulp_ball (cos_ulps e) (cos_near e)))
    (ulp_ball (sin_ulps e) (sin_near e)))
    (ulp_ball (cos_ulps entry30) (cos_near entry30)))
    (ulp_ball (sin_ulps entry30) (sin_near entry30)).

(** ** Observations on a built solid *)

(** The length of a vector, computed as [Normal] computes its [norm]. *)
Definition magnitude (p : Point float) : float :=
  PrimFloat.sqrt (x p * x p + y p * y p + z p * z p).

(** Magnitude 1.0 to within 1e-9. *)
Definition unit_length (p : Point float) : bool :=
  abs (magnitude p - 1) <=? 1e-9.

Definition finite_point (p : Point float) : bool :=
  is_finite (x p) && is_finite (y p) && is_finite (z p).

(** Every number a facet record prints: the normal and three vertices. *)
Definition facet_points (f : Facet float) : list (Point float) :=
  [Facet_Normal f; f0 f; f1 f; f2 f].

Definition finite_facet (f : Facet float) : bool :=
  forallb finite_point (facet_points f).

(** The cap facets of a box, by the quad they come from. *)
Definition bottom_cap (b : Box float) : list (Facet float) :=
  both (Quad_Facets (b0 b)).
Definition top_cap (b : Box float) : list (Facet float) :=
  both (Quad_Facets (b1 b)).

Definition points_down (f : Facet float) : bool := z (Facet_Normal f) <? 0.
Definition points_up (f : Facet float) : bool := 0 <? z (Facet_Normal f).

(** The end-to-end check of the solid of kite 0. *)
Definition kite0_checks (Sin Cos : float -> float) : bool :=
  match Kite Sin Cos (0, 0) (-60) 0 false with
  | Ok b =>
      Nat.eqb (List.length (Box_Facets b)) 12 &&
      forallb (fun f => unit_length (Facet_Normal f)) (Box_Facets b) &&
      forallb points_down (bottom_cap b) &&
      forallb points_up (top_cap b) &&
      forallb (fun i => Leibniz.eqb (z (Quad_at (b0 b) i)) 0 &&
                        (0 <? z (Quad_at (b1 b) i))) [0; 1; 2; 3]%nat
  | Fatal _ => false
  end.

(** The canonical footprint multiplied by the unit size, at Z = 0. *)
Definition scaled_footprint (Sin Cos : float -> float) : Quad float :=
  NewQuad
    (0 * unit) (0 * unit) 0
    (0 * unit) (sqrt3 * unit) 0
    (1 * unit) (sqrt3 * unit) 0
    (sqrt3 * cos30 Cos * unit) (sqrt3 * sin30 Sin * unit) 0.

Definition identity_checks (Sin Cos : float -> float) : bool :=
  match Kite Sin Cos (0, 0) 0 0 false with
  | Ok b => Quad_eqb (b0 b) (scaled_footprint Sin Cos)
  | Fatal _ => false
  end.

(** Two normals agree, component by component, to within 1e-9. *)
Definition normals_agree (n m : Point float) : bool :=
  (abs (x n - x m) <=? 1e-9) && (abs (y n - y m) <=? 1e-9) &&
  (abs (z n - z m) <=? 1e-9).

(** The two facets of a quad have normals that agree. *)
Definition facets_agree (q : Quad float) : bool :=
  normals_agree (Facet_Normal (fst (Quad_Facets q)))
                (Facet_Normal (snd (Quad_Facets q))).

(** A call of [Kite] returns a box all of whose printed numbers are
    finite and each of whose six quads has two facets with agreeing
    normals. *)
Definition box_checks (b : Box float) : bool :=
  forallb finite_facet (Box_Facets b) && forallb facets_agree (Box_quads b).

Definition kite_checks (k : kite) (inset : float) (reflect : bool)
    (Sin Cos : float -> float) : bool :=
  match Kite Sin Cos (pos k) (rot k) inset reflect with
  | Ok b => box_checks b
  | Fatal _ => false
  end.

(** The check of one call of [Kite] of the run, for every admissible sine
    and cosine at its rotation. *)
Definition kite_checks_all_trig (k : kite) (inset : float) (reflect : bool) : bool :=
  match entry_for (rot k) with
  | Some e => all_trig e (kite_checks k inset reflect)
  | None => false
  end.

(** [Kite] at the far position [(2^54, 0)], rotated by -1 degree and
    reflected, stops in [NewBox]. *)
Definition far_kite_stops (Sin Cos : float -> float) : bool :=
  match Kite Sin Cos (0x1p+54, 0) (-1) 0 true with
  | Ok _ => false
  | Fatal msg => String.eqb msg bad_bottom_normal
  end.

(** ** Statements about [NewBox] and [Kite] in the words of the
    specification *)

(** "Its Z component is negative" and "is positive", for the normal of
    the first facet of a quad. *)
Definition faces_down (q : Quad float) : Prop := (first_normal_z q <? 0) = true.
Definition faces_up (q : Quad float) : Prop := (0 <? first_normal_z q) = true.

(** The first facet has a zero-length cross product. *)
Definition zero_cross (q : Quad float) : bool :=
  let c := Facet_cross (fst (Quad_Facets q)) in
  is_zero (x c) && is_zero (y c) && is_zero (z c).

(** The quads of a box list the vertices [v]: the bottom at Z = 0 in
    forward order, the top at Z = (0.2 + inset) * unit in reverse order
    (from vertex 0 backwards). *)
Definition lists_vertices (v : vertices) (inset : float) (bot top : Quad float) : Prop :=
  (forall i, (i < 4)%nat ->
     Quad_at bot i = mkPoint (fst (vertex v i)) (snd (vertex v i)) 0) /\
  (forall i, (i < 4)%nat ->
     Quad_at top i =
       mkPoint (fst (vertex v ((4 - i) mod 4))) (snd (vertex v ((4 - i) mod 4)))
               ((0.2 + inset) * unit)).

(** A property of [Sin] and [Cos] that only reads them at [a] and [t]. *)
Definition reads_two (a t : float)
    (P : (float -> float) -> (float -> float) -> bool) : Prop :=
  forall S C S' C' : float -> float,
    S a = S' a -> C a = C' a -> S t = S' t -> C t = C' t -> P S C = P S' C'.

(** ** Validity of a quad *)

(** Twice the signed area of the triangle [a b c] in the XY plane. *)
Definition orient2 (a b c : Point float) : float :=
  (x b - x a) * (y c - y a) - (y b - y a) * (x c - x a).

(** The segments [a b] and [c d] cross in the XY plane. *)
Definition segments_cross (a b c d : Point float) : bool :=
  (orient2 a b c * orient2 a b d <? 0) && (orient2 c d a * orient2 c d b <? 0).

(** Twice the signed area of the outline in the listed order. *)
Definition shoelace2 (q : Quad float) : float :=
  (x (q0 q) * y (q1 q) - x (q1 q) * y (q0 q)) +
  (x (q1 q) * y (q2 q) - x (q2 q) * y (q1 q)) +
  (x (q2 q) * y (q3 q) - x (q3 q) * y (q2 q)) +
  (x (q3 q) * y (q0 q) - x (q0 q) * y (q3 q)).

(** A quad in the plane Z = 0 that is coplanar, non-degenerate (positive
    area, no three consecutive vertices on a line), simple (opposite
    edges do not cross) and listed counter-clockwise. *)
Definition planar_simple_ccw (q : Quad float) : bool :=
  forallb (fun i => Leibniz.eqb (z (Quad_at q i)) 0) [0; 1; 2; 3]%nat &&
  (0 <? shoelace2 q) &&
  forallb (fun i =>
    negb (orient2 (Quad_at q i) (Quad_at q ((i + 1) mod 4))
                  (Quad_at q ((i + 2) mod 4)) =? 0)) [0; 1; 2; 3]%nat &&
  negb (segments_cross (q0 q) (q1 q) (q2 q) (q3 q)) &&
  negb (segments_cross (q1 q) (q2 q) (q3 q) (q0 q)).


(** A square of side 1e-100, counter-clockwise from above. *)
Definition tiny_square : Quad float :=
  NewQuad 0 0 0  1e-100 0 0  1e-100 1e-100 0  0 1e-100 0.

(** ** Text output

    [fmt]'s verb [%.6e] is not part of the repository: the function that
    renders one [float64] with it is a parameter. *)

Definition nl : string := String (ascii_of_nat 10) EmptyString.

Section Output.
Variables Sin Cos : float -> float.
Variable format_e6 : float -> string.

(** [fmt.Sprintf("%.6e %.6e %.6e", p.x, p.y, p.z)] *)
Definition Point_String (p : Point float) : string :=
  (format_e6 (x p) ++ " " ++ format_e6 (y p) ++ " " ++ format_e6 (z p))%string.

(** [Facet.String]: the builder [b] is the text written so far. *)
Definition Facet_String (f : Facet float) : string :=
  let b := EmptyString in
  let b := (b ++ "facet normal " ++ Point_String (Facet_Normal f) ++ nl)%string in
  let b := (b ++ "  outer loop" ++ nl)%string in
  let b := fold_left
             (fun b p => (b ++ "    vertex " ++ Point_String p ++ nl)%string)
             [f0 f; f1 f; f2 f] b in
  let b := (b ++ "  endloop" ++ nl)%string in
  (b ++ "endfacet" ++ nl)%string.

(** [render]: [fmt.Fprintln(&b, f)] writes [f.String()] and a newline. *)
Definition render (name : string) (k : kite) (inset : float) (reflect : bool)
    : result string :=
  let b := ("solid " ++ name ++ nl ++ nl)%string in
  bind (Kite Sin Cos (pos k) (rot k) inset reflect) (fun stl =>
    Ok (fold_left (fun b f => (b ++ Facet_String f ++ nl)%string)
                  (Box_Facets stl) b)).

(** [fmt.Sprintf("kite%d", i)] and [fmt.Sprintf("kite-inset%d", i)] *)
Definition kite_name (i : nat) : string :=
  ("kite" ++ DecimalString.NilZero.string_of_uint (Nat.to_uint i))%string.
Definition kite_inset_name (i : nat) : string :=
  ("kite-inset" ++ DecimalString.NilZero.string_of_uint (Nat.to_uint i))%string.

(** The loop of [main] from index [i] on.  The result is what each call
    of [fmt.Println] wrote to standard output, in order, and the message
    of [log.Fatal] if the run stopped there. *)
Fixpoint main_loop (i : nat) (ks : list kite) (reflect : bool)
    : list string * option string :=
  match ks with
  | [] => ([], None)
  | k :: rest =>
      match render (kite_name i) k 0 reflect with
      | Fatal msg => ([], Some msg)
      | Ok s0 =>
          match render (kite_inset_name i) k inset reflect with
          | Fatal msg => ([(s0 ++ nl)%string], Some msg)
          | Ok s1 =>
              let '(out, stop) := main_loop (S i) rest reflect in
              ((s0 ++ nl)%string :: (s1 ++ nl)%string :: out, stop)
          end
      end
  end.

(** [main], given the value of the flag [-r]. *)
Definition main (reflect : bool) : list string * option string :=
  main_loop 0 kites reflect.
End Output.

(** ** The shape of the output *)

Definition is_digit (c : ascii) : bool :=
  Nat.leb 48 (nat_of_ascii c) && Nat.leb (nat_of_ascii c) 57.

Definition strip_minus (l : list ascii) : list ascii :=
  match l with
  | "-"%char :: r => r
  | _ => l
  end.

(** Decimal scientific notation with 6 digits after the point: an
    optional minus sign, one digit, a point, six digits, [e], a sign and
    at least two digits of exponent. *)
Definition is_sci6 (s : string) : bool :=
  match strip_minus (list_ascii_of_string s) with
  | d0 :: "."%char :: d1 :: d2 :: d3 :: d4 :: d5 :: d6 :: "e"%char
       :: sg :: e1 :: e2 :: rest =>
      forallb is_digit (d0 :: d1 :: d2 :: d3 :: d4 :: d5 :: d6 :: e1 :: e2 :: rest)
      && (Ascii.eqb sg "+" || Ascii.eqb sg "-")
  | _ => false
  end.

(** What [fmt] is assumed to do with [%.6e] on a finite number. *)
Definition formats_scientific (format_e6 : float -> string) : Prop :=
  forall c : float, is_finite c = true -> is_sci6 (format_e6 c) = true.

(** The texts of a list, one after the other. *)
Definition join (l : list string) : string := fold_right append EmptyString l.

(** Three coordinates separated by single spaces. *)
Definition is_point_text (s : string) : Prop :=
  exists a b c : string,
    is_sci6 a = true /\ is_sci6 b = true /\ is_sci6 c = true /\
    s = (a ++ " " ++ b ++ " " ++ c)%string.

(** A facet record: the normal line, the loop marker, three vertex
    lines, the loop terminator and the facet terminator. *)
Definition is_facet_record (r : string) : Prop :=
  exists n v0 v1 v2 : string,
    is_point_text n /\ is_point_text v0 /\ is_point_text v1 /\ is_point_text v2 /\
    r = ("facet normal " ++ n ++ nl ++
         "  outer loop" ++ nl ++
         "    vertex " ++ v0 ++ nl ++
         "    vertex " ++ v1 ++ nl ++
         "    vertex " ++ v2 ++ nl ++
         "  endloop" ++ nl ++
         "endfacet" ++ nl)%string.

(** A solid block: the header that names it, an empty line, and exactly
    12 facet records, each followed by an empty line. *)
Definition is_solid_block (name s : string) : Prop :=
  exists recs : list string,
    List.length recs = 12%nat /\
    Forall is_facet_record recs /\
    s = ("solid " ++ name ++ nl ++ nl ++ join (map (fun r => r ++ nl) recs))%string.

(** ** A reference formatter

    [%.6e] by exact integer arithmetic: the decimal exponent [k] of the
    value, then the value divided by [10^(k-6)] rounded to the nearest
    integer, ties to even.  Like the reference math library it only shows
    that the assumption on [fmt] has a model. *)

Module Fmt.
Definition digit_char (v : Z) : ascii := ascii_of_nat (48 + Z.to_nat (v mod 10)).

(** [num / den >= 10^k] *)
Definition ge_pow10 (num den k : Z) : bool :=
  if Z.leb 0 k then Z.leb (den * 10 ^ k) num else Z.leb den (num * 10 ^ (- k)).

(** The largest [k] below the start with [num / den >= 10^k]. *)
Fixpoint find_exp (fuel : nat) (num den k : Z) : Z :=
  match fuel with
  | O => k
  | S f => if ge_pow10 num den k then k else find_exp f num den (k - 1)
  end.

(** [num / den] rounded to the nearest integer, ties to even. *)
Definition round_div (num den : Z) : Z :=
  let q := (num / den)%Z in
  let r := (num mod den)%Z in
  if Z.ltb (2 * r) den then q
  else if Z.ltb den (2 * r) then (q + 1)%Z
  else if Z.even q then q else (q + 1)%Z.

(** The seven digits [n] and the exponent [k] as text. *)
Definition sci_text (neg : bool) (n k : Z) : string :=
  let body :=
    String (digit_char (n / 1000000)) (String "."
    (String (digit_char (n / 100000)) (String (digit_char (n / 10000))
    (String (digit_char (n / 1000)) (String (digit_char (n / 100))
    (String (digit_char (n / 10)) (String (digit_char n)
    (String "e" (String (if Z.ltb k 0 then "-" else "+")%char
    (let a := Z.abs k in
     if Z.ltb a 100 then
       String (digit_char (a / 10)) (String (digit_char a) EmptyString)
     else
       String (digit_char (a / 100)) (String (digit_char (a / 10))
       (String (digit_char a) EmptyString)))))))))))) in
  if neg then String "-" body else body.

Definition format_e6 (c : float) : string :=
  match Prim2SF c with
  | S754_nan => "NaN"
  | S754_infinity s => if s then "-Inf" else "+Inf"
  | S754_zero s => sci_text s 0 0
  | S754_finite s m e =>
      let num := if Z.leb 0 e then (Z.pos m * 2 ^ e)%Z else Z.pos m in
      let den := if Z.leb 0 e then 1%Z else (2 ^ (- e))%Z in
      let k := find_exp 700 num den 309 in
      let n := if Z.leb k 6 then round_div (num * 10 ^ (6 - k)) den
               else round_div num (den * 10 ^ (k - 6)) in
      if Z.leb 10000000 n then sci_text s 1000000 (k + 1) else sci_text s n k
  end.
End Fmt.

(** ** Further observations on facets, quads and boxes *)

(** A float that is a zero or NaN. *)
Definition zero_or_nan (a : float) : Prop :=
  Prim2SF a = S754_nan \/ exists s, Prim2SF a = S754_zero s.

(** Two of the three vertices of a facet coincide. *)
(** The second or the third vertex of the facet is its first vertex:
    one of the two edge vectors that [Normal] subtracts is [p - p]. *)
Definition repeats_first_vertex (f : Facet float) : Prop :=
  f1 f = f0 f \/ f2 f = f0 f.

Definition has_nan (p : Point float) : bool :=
  is_nan (x p) || is_nan (y p) || is_nan (z p).

(** One of the nine coordinates of the facet is NaN. *)
Definition nan_vertex (f : Facet float) : Prop :=
  has_nan (f0 f) = true \/ has_nan (f1 f) = true \/ has_nan (f2 f) = true.

Definition nan_point (p : Point float) : Prop :=
  is_nan (x p) = true /\ is_nan (y p) = true /\ is_nan (z p) = true.

Section Mesh.
Context {T : Type}.

(** The three directed edges of a triangle, in its winding order. *)
Definition Facet_edges (f : Facet T) : list (Point T * Point T) :=
  [(f0 f, f1 f); (f1 f, f2 f); (f2 f, f0 f)].

Definition Facet_vertices (f : Facet T) : list (Point T) := [f0 f; f1 f; f2 f].

(** The directed edges of the twelve facets of a box. *)
Definition Box_edges (b : Box T) : list (Point T * Point T) :=
  flat_map Facet_edges (Box_Facets b).

(** The eight vertices a box stores: [b[0][0..3]] then [b[1][0..3]]. *)
Definition Box_vertices (b : Box T) : list (Point T) :=
  [q0 (b0 b); q1 (b0 b); q2 (b0 b); q3 (b0 b);
   q0 (b1 b); q1 (b1 b); q2 (b1 b); q3 (b1 b)].
End Mesh.

(** The quad with its fourth vertex replaced. *)
Definition with_fourth {T : Type} (q : Quad T) (p : Point T) : Quad T :=
  mkQuad (q0 q) (q1 q) (q2 q) p.

(** The mirror image of a point: X negated. *)
Definition mirror (p : Point float) : Point float :=
  mkPoint (- x p) (y p) (z p).


(** A quad moved to the height [h]: every Z replaced by [h]. *)
Definition at_height (h : float) (q : Quad float) : Quad float :=
  mkQuad (mkPoint (x (q0 q)) (y (q0 q)) h) (mkPoint (x (q1 q)) (y (q1 q)) h)
         (mkPoint (x (q2 q)) (y (q2 q)) h) (mkPoint (x (q3 q)) (y (q3 q)) h).

(** The centre of the eight vertices of a box. *)
Definition Box_centre (b : Box float) : Point float :=
  let vs := Box_vertices b in
  mkPoint (fold_right (fun p s => x p + s) 0 vs / 8)
          (fold_right (fun p s => y p + s) 0 vs / 8)
          (fold_right (fun p s => z p + s) 0 vs / 8).

Definition dot_float (a b : Point float) : float :=
  x a * x b + y a * y b + z a * z b.

(** The normal of [f] points from the centre of the box towards [f]. *)
Definition points_outward (b : Box float) (f : Facet float) : bool :=
  0 <? dot_float (Facet_Normal f) (Point_sub (f0 f) (Box_centre b)).

Fixpoint distinct_points (l : list (Point float)) : bool :=
  match l with
  | [] => true
  | p :: r => negb (existsb (Point_eqb p) r) && distinct_points r
  end.

(** Every normal of the box has length 1 to within 1e-9 and points
    outward, the normals of the caps have Z exactly -1 (bottom) and 1
    (top), and the eight vertices are distinct. *)
Definition solid_checks (b : Box float) : bool :=
  forallb (fun f => unit_length (Facet_Normal f) && points_outward b f)
          (Box_Facets b) &&
  forallb (fun f => Leibniz.eqb (z (Facet_Normal f)) (-1)) (bottom_cap b) &&
  forallb (fun f => Leibniz.eqb (z (Facet_Normal f)) 1) (top_cap b) &&
  distinct_points (Box_vertices b).

Definition kite_solid_checks (k : kite) (inset : float) (reflect : bool)
    (Sin Cos : float -> float) : bool :=
  match Kite Sin Cos (pos k) (rot k) inset reflect with
  | Ok b => solid_checks b
  | Fatal _ => false
  end.

Definition kite_solid_checks_all_trig (k : kite) (inset : float) (reflect : bool) : bool :=
  match entry_for (rot k) with
  | Some e => all_trig e (kite_solid_checks k inset reflect)
  | None => false
  end.

(** A text that one call of [fmt.Println] in [main] wrote: the whole
    text of a successful [render] of one of the kites, and a newline. *)
Definition whole_block (Sin Cos : float -> float) (format_e6 : float -> string)
    (ks : list kite) (reflect : bool) (s : string) : Prop :=
  exists (name : string) (k : kite) (ins : float) (blk : string),
    In k ks /\ In ins [0; inset] /\
    render Sin Cos format_e6 name k ins reflect = Ok blk /\
    s = (blk ++ nl)%string.

(** The number of newline characters of a text. *)
Fixpoint count_newlines (s : string) : nat :=
  match s with
  | EmptyString => 0
  | String c r =>
      (if Ascii.eqb c (ascii_of_nat 10) then 1 else 0) + count_newlines r
  end.

(** The formatter never writes a newline. *)
Definition one_line (format_e6 : float -> string) : Prop :=
  forall c : float, count_newlines (format_e6 c) = 0%nat.


(* ================================================================= *)
(** * Properties *)

(** ** Facts about binary64 *)

Lemma Prim2SF_zero : Prim2SF 0 = S754_zero false.
Proof. reflexivity. Qed.

Lemma is_nan_Prim2SF (a : float) : is_nan a = true -> Prim2SF a = S754_nan.
Proof.
  unfold is_nan. rewrite FloatAxioms.eqb_spec. unfold SFeqb.
  destruct (Prim2SF a) as [s | s | | s m e]; simpl; try discriminate; auto.
  - destruct s; discriminate.
  - destruct s; rewrite Z.compare_refl, Pos.compare_cont_refl; discriminate.
Qed.

Lemma not_nan_Prim2SF (a : float) : is_nan a = false -> Prim2SF a <> S754_nan.
Proof.
  unfold is_nan. rewrite FloatAxioms.eqb_spec. intros E N. rewrite N in E. discriminate.
Qed.

(** Both comparisons with zero are false on NaN. *)
Lemma nan_leb_zero (a : float) :
  is_nan a = true -> (0 <=? a) = false /\ (a <=? 0) = false.
Proof.
  intros N. apply is_nan_Prim2SF in N.
  rewrite !FloatAxioms.leb_spec, Prim2SF_zero, N. split; reflexivity.
Qed.

(** Away from NaN, [a < 0] is the negation of [a >= 0] and [0 < a] is the
    negation of [a <= 0]. *)
Lemma ltb_zero_negb (a : float) :
  is_nan a = false -> (a <? 0) = negb (0 <=? a) /\ (0 <? a) = negb (a <=? 0).
Proof.
  intros N. apply not_nan_Prim2SF in N.
  rewrite !FloatAxioms.leb_spec, !FloatAxioms.ltb_spec, Prim2SF_zero.
  destruct (Prim2SF a) as [s | s | | s m e]; try congruence;
    destruct s; split; reflexivity.
Qed.

Lemma opp_involutive (a : float) : - - a = a.
Proof.
  apply Prim2SF_inj. rewrite !FloatAxioms.opp_spec.
  destruct (Prim2SF a); simpl; rewrite ?negb_involutive; reflexivity.
Qed.

Lemma Point_eqb_eq (p q : Point float) : Point_eqb p q = true <-> p = q.
Proof.
  unfold Point_eqb. rewrite !andb_true_iff, !Leibniz.eqb_spec.
  destruct p, q; simpl. split.
  - intros [[-> ->] ->]. reflexivity.
  - intros E. injection E. auto.
Qed.

Lemma Facet_eqb_eq (f g : Facet float) : Facet_eqb f g = true <-> f = g.
Proof.
  unfold Facet_eqb. rewrite !andb_true_iff, !Point_eqb_eq.
  destruct f, g; simpl. split.
  - intros [[-> ->] ->]. reflexivity.
  - intros E. injection E. auto.
Qed.

Lemma Quad_eqb_eq (p q : Quad float) : Quad_eqb p q = true <-> p = q.
Proof.
  unfold Quad_eqb. rewrite !andb_true_iff, !Point_eqb_eq.
  destruct p, q; simpl. split.
  - intros [[[-> ->] ->] ->]. reflexivity.
  - intros E. injection E. auto.
Qed.

Lemma not_In_facet (f : Facet float) (l : list (Facet float)) :
  existsb (Facet_eqb f) l = false -> ~ In f l.
Proof.
  intros E HI.
  assert (X : existsb (Facet_eqb f) l = true).
  { apply existsb_exists. exists f. split; [exact HI | now apply Facet_eqb_eq]. }
  congruence.
Qed.

(** ** Quad.Facets *)

(** C8: [Quad.Facets] returns the triangles (q[0],q[1],q[2]) and
    (q[2],q[3],q[0]), whatever the vertex values are. *)
Theorem Quad_Facets_fixed_diagonal {T : Type} (q : Quad T) :
  Quad_Facets q =
    (mkFacet (Quad_at q 0) (Quad_at q 1) (Quad_at q 2),
     mkFacet (Quad_at q 2) (Quad_at q 3) (Quad_at q 0)).
Proof. reflexivity. Qed.

(** ** Box.Facets *)

Lemma Box_Facets_length {T : Type} (b : Box T) : List.length (Box_Facets b) = 12%nat.
Proof. reflexivity. Qed.

(** On the sample box the first triangle of each same-index side quad is
    not a facet, whichever of the two quads is called the bottom. *)
Lemma sample_same_index_absent :
  let b := mkBox sample_bottom sample_top in
  forallb (fun i =>
    forallb (fun f => negb (existsb (Facet_eqb f) (Box_Facets b)))
      [fst (Quad_Facets (side_quad_same_index (b0 b) (b1 b) i));
       fst (Quad_Facets (side_quad_same_index (b1 b) (b0 b) i))])
    [0; 1; 2; 3]%nat = true.
Proof. vm_compute. reflexivity. Qed.

(** C2, as stated, fails: on the box that [NewBox] builds from the two
    sample quads, the first triangle of the quad
    (bottom[0], bottom[1], top[1], top[0]) is not among the facets; nor
    is it when the names of the two quads are exchanged. *)
Lemma Box_Facets_not_same_index :
  NewBox sample_bottom sample_top = Ok (mkBox sample_bottom sample_top) /\
  ~ (forall (b : Box float) (i : nat), (i < 4)%nat ->
       incl (both (Quad_Facets (side_quad_same_index (b0 b) (b1 b) i)))
            (Box_Facets b)) /\
  ~ (forall (b : Box float) (i : nat), (i < 4)%nat ->
       incl (both (Quad_Facets (side_quad_same_index (b1 b) (b0 b) i)))
            (Box_Facets b)).
Proof.
  split; [vm_compute; reflexivity |].
  split; intros C.
  - specialize (C (mkBox sample_bottom sample_top) 0%nat ltac:(lia)
                  (fst (Quad_Facets (side_quad_same_index sample_bottom sample_top 0)))).
    apply (not_In_facet
             (fst (Quad_Facets (side_quad_same_index sample_bottom sample_top 0)))
             (Box_Facets (mkBox sample_bottom sample_top))).
    + vm_compute. reflexivity.
    + apply C. simpl. left. reflexivity.
  - specialize (C (mkBox sample_bottom sample_top) 0%nat ltac:(lia)
                  (fst (Quad_Facets (side_quad_same_index sample_top sample_bottom 0)))).
    apply (not_In_facet
             (fst (Quad_Facets (side_quad_same_index sample_top sample_bottom 0)))
             (Box_Facets (mkBox sample_bottom sample_top))).
    + vm_compute. reflexivity.
    + apply C. simpl. left. reflexivity.
Qed.

(** C2, amended: [Box.Facets] returns twelve triangles: the two facets of
    [b[0]] (the bottom), the two facets of [b[1]] (the top), and for
    i = 0..3 the two facets of the quad
    (top[(4-i) mod 4], top[(3-i) mod 4], bottom[(i+1) mod 4], bottom[i]),
    each quad split by [Quad.Facets]. *)
Theorem Box_Facets_twelve {T : Type} (b : Box T) :
  let bottom := b0 b in
  let top := b1 b in
  List.length (Box_Facets b) = 12%nat /\
  Box_Facets b =
    both (Quad_Facets bottom) ++ both (Quad_Facets top) ++
    flat_map (fun i => both (Quad_Facets (side_quad bottom top i))) (seq 0 4).
Proof. split; reflexivity. Qed.

(** ** NewBox *)

Lemma NewBox_Ok (q0 q1 : Quad float) (b : Box float) :
  NewBox q0 q1 = Ok b -> b = mkBox q0 q1.
Proof.
  unfold NewBox.
  destruct (0 <=? first_normal_z q0); [discriminate |].
  destruct (first_normal_z q1 <=? 0); [discriminate |].
  intros E. injection E. auto.
Qed.

Lemma NewBox_fatal (q0 q1 : Quad float) :
  is_fatal (NewBox q0 q1) = (0 <=? first_normal_z q0) || (first_normal_z q1 <=? 0).
Proof.
  unfold NewBox.
  destruct (0 <=? first_normal_z q0); [reflexivity |].
  destruct (first_normal_z q1 <=? 0); reflexivity.
Qed.

Lemma flat_quad_nan : is_nan (first_normal_z flat_quad) = true.
Proof. vm_compute. reflexivity. Qed.

Lemma NewBox_not_fatal (q0 q1 : Quad float) :
  is_fatal (NewBox q0 q1) = false -> NewBox q0 q1 = Ok (mkBox q0 q1).
Proof.
  unfold NewBox.
  destruct (0 <=? first_normal_z q0); [discriminate |].
  destruct (first_normal_z q1 <=? 0); [discriminate | reflexivity].
Qed.

(** C3, as stated, fails: the first facet of [flat_quad] has a NaN
    normal, whose Z component is not negative, and yet [NewBox] accepts
    it as a bottom. *)
Lemma NewBox_not_iff_not_negative :
  ~ (forall q0 q1 : Quad float,
       is_fatal (NewBox q0 q1) = true <-> (~ faces_down q0 \/ ~ faces_up q1)).
Proof.
  intros C.
  destruct (C flat_quad sample_top) as [_ C2].
  assert (F : is_fatal (NewBox flat_quad sample_top) = true).
  { apply C2. left. unfold faces_down. vm_compute. discriminate. }
  vm_compute in F. discriminate.
Qed.

(** C3, amended: [NewBox] stops exactly when the Z component of the
    bottom's first-facet normal compares [>= 0] or that of the top's
    compares [<= 0]; when neither component is NaN this is: the bottom's
    is not negative or the top's is not positive.  Otherwise it returns
    the box holding the two quads, unchanged. *)
Theorem NewBox_fatal_iff (q0 q1 : Quad float) :
  (is_fatal (NewBox q0 q1) = true <->
     (0 <=? first_normal_z q0) = true \/ (first_normal_z q1 <=? 0) = true) /\
  (is_nan (first_normal_z q0) = false ->
   is_nan (first_normal_z q1) = false ->
     (is_fatal (NewBox q0 q1) = true <-> (~ faces_down q0 \/ ~ faces_up q1))) /\
  (is_fatal (NewBox q0 q1) = false -> NewBox q0 q1 = Ok (mkBox q0 q1)) /\
  (forall b, NewBox q0 q1 = Ok b -> b0 b = q0 /\ b1 b = q1).
Proof.
  split; [| split; [| split]].
  - rewrite NewBox_fatal. apply orb_true_iff.
  - intros N0 N1.
    rewrite NewBox_fatal, orb_true_iff. unfold faces_down, faces_up.
    destruct (ltb_zero_negb _ N0) as [-> _], (ltb_zero_negb _ N1) as [_ ->].
    rewrite !negb_true_iff, !not_false_iff_true. reflexivity.
  - apply NewBox_not_fatal.
  - intros b E. apply NewBox_Ok in E. subst b. split; reflexivity.
Qed.

Lemma is_zero_cases (a : float) : is_zero a = true -> a = 0 \/ a = -0.
Proof.
  unfold is_zero. rewrite FloatAxioms.eqb_spec. intros E.
  rewrite <- (SF2Prim_Prim2SF a).
  change (Prim2SF PrimFloat.zero) with (S754_zero false) in E.
  destruct (Prim2SF a) as [s | s | | s m e]; try discriminate E.
  - destruct s; [right | left]; reflexivity.
  - destruct s; discriminate E.
  - destruct s; discriminate E.
Qed.

(** A zero vector divided by its own length: 0/0 in every component. *)
Lemma zero_over_zero_norm (nx ny nz : float) :
  is_zero nx = true -> is_zero ny = true -> is_zero nz = true ->
  let norm := PrimFloat.sqrt (nx * nx + ny * ny + nz * nz) in
  is_nan (nx / norm) = true /\ is_nan (ny / norm) = true /\
  is_nan (nz / norm) = true.
Proof.
  intros Zx Zy Zz.
  destruct (is_zero_cases _ Zx) as [-> | ->],
           (is_zero_cases _ Zy) as [-> | ->],
           (is_zero_cases _ Zz) as [-> | ->];
    vm_compute; auto.
Qed.

Lemma ltb_zero_leb (a : float) :
  ((0 <? a) = true -> (a <=? 0) = false) /\
  ((a <? 0) = true -> (0 <=? a) = false).
Proof.
  rewrite !FloatAxioms.ltb_spec, !FloatAxioms.leb_spec, Prim2SF_zero.
  destruct (Prim2SF a) as [s | s | | s m e];
    try destruct s; split; intros E; try discriminate E; reflexivity.
Qed.

(** C10: when the first facet of a quad has a zero cross product, the
    three components of its normal are NaN, neither sign check of
    [NewBox] fires on it, and [NewBox] returns the box: with the
    degenerate quad as bottom, as top, or as both. *)
Theorem NewBox_accepts_degenerate (q : Quad float) :
  zero_cross q = true ->
  let n := Facet_Normal (fst (Quad_Facets q)) in
  (is_nan (x n) = true /\ is_nan (y n) = true /\ is_nan (z n) = true) /\
  ((0 <=? first_normal_z q) = false /\ (first_normal_z q <=? 0) = false) /\
  (forall q1, faces_up q1 -> NewBox q q1 = Ok (mkBox q q1)) /\
  (forall q0, faces_down q0 -> NewBox q0 q = Ok (mkBox q0 q)) /\
  NewBox q q = Ok (mkBox q q).
Proof.
  intros Z n. unfold zero_cross in Z. cbv zeta in Z.
  rewrite !andb_true_iff in Z. destruct Z as [[Zx Zy] Zz].
  pose proof (zero_over_zero_norm _ _ _ Zx Zy Zz) as N.
  assert (Nz : is_nan (first_normal_z q) = true) by apply N.
  destruct (nan_leb_zero _ Nz) as [L1 L2].
  split; [exact N |]. split; [split; assumption |].
  repeat split.
  - intros q1 U. unfold NewBox. rewrite L1.
    rewrite (proj1 (ltb_zero_leb _) U). reflexivity.
  - intros q0 D. unfold NewBox.
    rewrite (proj2 (ltb_zero_leb _) D), L2. reflexivity.
  - unfold NewBox. rewrite L1, L2. reflexivity.
Qed.

Lemma NewBox_accepts_degenerate_witness :
  zero_cross flat_quad = true /\
  NewBox flat_quad flat_quad = Ok (mkBox flat_quad flat_quad).
Proof.
  split.
  - reflexivity.
  - apply (NewBox_accepts_degenerate flat_quad). reflexivity.
Defined.

(** ** The reflect stage *)

(** C6: the reflect stage negates every X and swaps vertex 0 with 3 and
    1 with 2; applied twice it gives back the vertices it started from,
    in their order. *)
Theorem reflect_all_involutive (v : vertices) :
  (forall i, (i < 4)%nat ->
     vertex (reflect_all v) i =
       (- fst (vertex v (3 - i)), snd (vertex v (3 - i)))) /\
  reflect_all (reflect_all v) = v.
Proof.
  destruct v as [[[[x0 y0] [x1 y1]] [x2 y2]] [x3 y3]]. split.
  - intros i Hi.
    destruct i as [| [| [| [| i]]]]; try lia; reflexivity.
  - simpl. rewrite !opp_involutive. reflexivity.
Qed.

(** ** Kite *)

Lemma angle30 : angle entry30 = 30 / rad.
Proof. reflexivity. Qed.

(** [Kite] reads [Sin] and [Cos] at 30 degrees and at the rotation. *)
Lemma Kite_vertices_ext (S C S' C' : float -> float) loc d ins rf :
  S (30 / rad) = S' (30 / rad) -> C (30 / rad) = C' (30 / rad) ->
  S (float64_of_int d / rad) = S' (float64_of_int d / rad) ->
  C (float64_of_int d / rad) = C' (float64_of_int d / rad) ->
  Kite_vertices S C loc d ins rf = Kite_vertices S' C' loc d ins rf.
Proof.
  intros E1 E2 E3 E4.
  unfold Kite_vertices, footprint, cos30, sin30.
  rewrite E1, E2, E3, E4. reflexivity.
Qed.

Lemma Kite_ext (S C S' C' : float -> float) loc d ins rf :
  S (30 / rad) = S' (30 / rad) -> C (30 / rad) = C' (30 / rad) ->
  S (float64_of_int d / rad) = S' (float64_of_int d / rad) ->
  C (float64_of_int d / rad) = C' (float64_of_int d / rad) ->
  Kite S C loc d ins rf = Kite S' C' loc d ins rf.
Proof.
  intros E1 E2 E3 E4. unfold Kite.
  rewrite (Kite_vertices_ext S C S' C' loc d ins rf E1 E2 E3 E4). reflexivity.
Qed.

(** The quads that [Kite] hands to [NewBox]. *)
Lemma Kite_unfold (Sin Cos : float -> float) loc d ins rf :
  exists bot top,
    lists_vertices (Kite_vertices Sin Cos loc d ins rf) ins bot top /\
    Kite Sin Cos loc d ins rf = NewBox bot top.
Proof.
  unfold Kite.
  destruct (Kite_vertices Sin Cos loc d ins rf)
    as [[[[x0 y0] [x1 y1]] [x2 y2]] [x3 y3]].
  eexists. eexists. split; [| reflexivity].
  split; intros i Hi; destruct i as [| [| [| [| i]]]]; try lia; reflexivity.
Qed.

(** ** Running through the admissible sines and cosines *)

Lemma within_ulps_In (n : nat) (c v : float) :
  within_ulps n c v = true -> In v (ulp_ball n c).
Proof.
  unfold within_ulps. intros E.
  apply existsb_exists in E. destruct E as [w [Hw E]].
  apply FloatAxioms.Leibniz.eqb_spec in E. subst w. exact Hw.
Qed.

Lemma Leibniz_eqb_refl (a : float) : Leibniz.eqb a a = true.
Proof. apply FloatAxioms.Leibniz.eqb_spec. reflexivity. Qed.

Lemma all_trig_sound (Sin Cos : float -> float) (e : trig_entry) P :
  accurate_at Sin Cos entry30 = true ->
  accurate_at Sin Cos e = true ->
  reads_two (angle entry30) (angle e) P ->
  all_trig e P = true ->
  P Sin Cos = true.
Proof.
  unfold accurate_at, all_trig.
  rewrite !andb_true_iff, negb_true_iff.
  intros [S30 C30] [Se Ce] R [Ne A].
  apply within_ulps_In in S30, C30, Se, Ce.
  rewrite forallb_forall in A. specialize (A _ S30).
  rewrite forallb_forall in A. specialize (A _ C30).
  rewrite forallb_forall in A. specialize (A _ Se).
  rewrite forallb_forall in A. specialize (A _ Ce).
  rewrite <- A. apply R; unfold two_point;
    rewrite ?Leibniz_eqb_refl, ?Ne; reflexivity.
Qed.

Lemma accurate_entry30 (Sin Cos : float -> float) :
  accurate Sin Cos -> accurate_at Sin Cos entry30 = true.
Proof.
  unfold accurate. intros A. rewrite forallb_forall in A.
  apply A. left. reflexivity.
Qed.

Lemma accurate_entry_for (Sin Cos : float -> float) (d : Z) (e : trig_entry) :
  accurate Sin Cos -> entry_for d = Some e ->
  accurate_at Sin Cos e = true /\ angle e = float64_of_int d / rad.
Proof.
  unfold accurate, entry_for. intros A F.
  apply find_some in F. destruct F as [I D].
  apply Z.eqb_eq in D. rewrite forallb_forall in A. split.
  - apply A. right. exact I.
  - unfold angle. rewrite D. reflexivity.
Qed.

Lemma Cephes_accurate : accurate Cephes.sin Cephes.cos.
Proof. vm_compute. reflexivity. Qed.

Lemma Cephes_accurate_minus1 :
  accurate_at Cephes.sin Cephes.cos entry_minus1 = true.
Proof. vm_compute. reflexivity. Qed.

(** Properties of a call of [Kite] read [Sin] and [Cos] at two points. *)
Lemma reads_two_Kite (e : trig_entry) (d : Z) loc ins rf
    (Q : result (Box float) -> bool) :
  angle e = float64_of_int d / rad ->
  reads_two (angle entry30) (angle e) (fun S C => Q (Kite S C loc d ins rf)).
Proof.
  intros Ea S C S' C' E1 E2 E3 E4.
  rewrite angle30 in E1, E2. rewrite Ea in E3, E4.
  rewrite (Kite_ext S C S' C' loc d ins rf E1 E2 E3 E4). reflexivity.
Qed.

(** The vertices at the far position, with the reference library: the
    translation by 12 * 2^54 rounds every X to a multiple of 32, which
    puts three of the four vertices on one vertical line. *)
Lemma far_kite_vertices :
  Kite_vertices Cephes.sin Cephes.cos (0x1p+54, 0) (-1) 0 true =
    ((-2.1617278211378384e+17, 10.076578731177944),
     (-2.1617278211378381e+17, 20.572015216850698),
     (-2.1617278211378381e+17, 20.781444094098099),
     (-2.1617278211378381e+17, 0)).
Proof. vm_compute. reflexivity. Qed.

(** C7, as stated, fails: at the position (2^54, 0), rotated by -1 degree
    and reflected, with inset 0, the rounding of the translation turns
    the first bottom triangle over and [Kite] stops in [NewBox] instead
    of returning its quads, for every sine and cosine within 2 ulps of
    the true values (the reference library is one). *)
Lemma Kite_stops_far_away :
  (accurate_at Cephes.sin Cephes.cos entry30 = true /\
   accurate_at Cephes.sin Cephes.cos entry_minus1 = true) /\
  forall Sin Cos : float -> float,
    accurate_at Sin Cos entry30 = true ->
    accurate_at Sin Cos entry_minus1 = true ->
    (0 <=? 0) = true /\
    Kite Sin Cos (0x1p+54, 0) (-1) 0 true = Fatal bad_bottom_normal.
Proof.
  split; [split; vm_compute; reflexivity |].
  intros Sin Cos A30 A1. split; [reflexivity |].
  assert (F : far_kite_stops Sin Cos = true).
  { apply (all_trig_sound Sin Cos entry_minus1 far_kite_stops A30 A1).
    - apply (reads_two_Kite entry_minus1 (-1) (0x1p+54, 0) 0 true
               (fun r => match r with
                         | Ok _ => false
                         | Fatal msg => String.eqb msg bad_bottom_normal
                         end)).
      reflexivity.
    - vm_compute. reflexivity. }
  unfold far_kite_stops in F.
  destruct (Kite Sin Cos (0x1p+54, 0) (-1) 0 true) as [b | msg];
    [discriminate F |].
  apply String.eqb_eq in F. rewrite F. reflexivity.
Qed.

(** C7, amended: for every input [Kite] builds a bottom quad whose four
    vertices have Z = 0 and list the transformed vertices in forward
    order, and a top quad whose four vertices have
    Z = (0.2 + inset) * unit and list them in reverse order (0, 3, 2, 1);
    it passes both to [NewBox] and returns the box that holds exactly
    these quads whenever the orientation check accepts them. *)
Theorem Kite_builds_quads (Sin Cos : float -> float)
    (loc : float * float) (rotationDegrees : Z) (inset : float) (reflect : bool) :
  exists bot top : Quad float,
    lists_vertices (Kite_vertices Sin Cos loc rotationDegrees inset reflect)
      inset bot top /\
    Kite Sin Cos loc rotationDegrees inset reflect = NewBox bot top /\
    (is_fatal (NewBox bot top) = false ->
       Kite Sin Cos loc rotationDegrees inset reflect = Ok (mkBox bot top)) /\
    (forall b, Kite Sin Cos loc rotationDegrees inset reflect = Ok b ->
       b0 b = bot /\ b1 b = top).
Proof.
  destruct (Kite_unfold Sin Cos loc rotationDegrees inset reflect)
    as [bot [top [L E]]].
  exists bot, top. split; [exact L |]. split; [exact E |]. split.
  - intros F. rewrite E. apply NewBox_not_fatal. exact F.
  - intros b K. rewrite E in K. apply NewBox_Ok in K. subst b. split; reflexivity.
Qed.

(** C1: the solid of kite 0 (position (0,0), rotation -60, inset 0, not
    reflected) is built, has exactly 12 facets, every facet normal has
    magnitude 1.0 to within 1e-9, the two facets of the bottom cap (at
    Z = 0) have normals with negative Z and the two facets of the top cap
    (at positive Z) have normals with positive Z: the cap normals point
    away from the solid. *)
Theorem kite0_solid (Sin Cos : float -> float) :
  accurate Sin Cos ->
  nth_error kites 0 = Some (mkKite (0, 0) (-60)) /\
  exists b : Box float,
    Kite Sin Cos (0, 0) (-60) 0 false = Ok b /\
    List.length (Box_Facets b) = 12%nat /\
    (forall f, In f (Box_Facets b) -> unit_length (Facet_Normal f) = true) /\
    (List.length (bottom_cap b) = 2%nat /\
     forall f, In f (bottom_cap b) ->
       In f (Box_Facets b) /\ (z (Facet_Normal f) <? 0) = true) /\
    (List.length (top_cap b) = 2%nat /\
     forall f, In f (top_cap b) ->
       In f (Box_Facets b) /\ (0 <? z (Facet_Normal f)) = true) /\
    (forall i, (i < 4)%nat ->
       z (Quad_at (b0 b) i) = 0 /\ (0 <? z (Quad_at (b1 b) i)) = true).
Proof.
  intros A. split; [reflexivity |].
  assert (E : entry_for (-60) = Some
                (mkEntry (-60) (-0x1.bb67ae8584caap-1) 2 0x1.0000000000001p-1 2))
    by reflexivity.
  destruct (accurate_entry_for Sin Cos _ _ A E) as [Ae Ea].
  assert (K : kite0_checks Sin Cos = true).
  { apply (all_trig_sound Sin Cos _ kite0_checks (accurate_entry30 _ _ A) Ae).
    - unfold kite0_checks.
      apply (reads_two_Kite _ (-60) (0, 0) 0 false
               (fun r => match r with Ok b => _ | Fatal _ => false end)).
      exact Ea.
    - vm_compute. reflexivity. }
  unfold kite0_checks in K.
  destruct (Kite Sin Cos (0, 0) (-60) 0 false) as [b | msg]; [| discriminate K].
  rewrite !andb_true_iff in K. destruct K as [[[[L U] D] P] Zs].
  exists b. split; [reflexivity |]. split; [reflexivity |].
  rewrite forallb_forall in U, D, P, Zs.
  split; [exact U |]. split; [| split].
  - split; [reflexivity |]. intros f I. split; [| exact (D f I)].
    unfold bottom_cap, both in I. simpl in I. simpl.
    destruct I as [<- | [<- | []]]; auto.
  - split; [reflexivity |]. intros f I. split; [| exact (P f I)].
    unfold top_cap, both in I. simpl in I. simpl.
    destruct I as [<- | [<- | []]]; auto.
  - intros i Hi.
    assert (I : In i [0; 1; 2; 3]%nat) by (simpl; lia).
    specialize (Zs i I). apply andb_true_iff in Zs. destruct Zs as [Z0 Z1].
    apply FloatAxioms.Leibniz.eqb_spec in Z0. split; assumption.
Qed.

Lemma kite0_solid_witness :
  accurate Cephes.sin Cephes.cos /\
  exists b : Box float,
    Kite Cephes.sin Cephes.cos (0, 0) (-60) 0 false = Ok b /\
    List.length (Box_Facets b) = 12%nat.
Proof.
  assert (A : accurate Cephes.sin Cephes.cos) by (vm_compute; reflexivity).
  split; [exact A |].
  destruct (kite0_solid Cephes.sin Cephes.cos A) as [_ [b [K [L _]]]].
  exists b. split; assumption.
Defined.

(** C5: with rotation 0, inset 0, position (0,0) and no reflection the
    bottom quad that [Kite] returns has exactly the vertices of the
    footprint (0,0), (0,sqrt3), (1,sqrt3), (sqrt3*cos30, sqrt3*sin30),
    each coordinate multiplied by the unit size 12, at Z = 0. *)
Theorem Kite_identity_exact (Sin Cos : float -> float) :
  accurate Sin Cos ->
  footprint Sin Cos =
    ((0, 0), (0, sqrt3), (1, sqrt3), (sqrt3 * cos30 Cos, sqrt3 * sin30 Sin)) /\
  unit = 12 /\
  exists b : Box float,
    Kite Sin Cos (0, 0) 0 0 false = Ok b /\
    forall i, (i < 4)%nat ->
      Quad_at (b0 b) i =
        mkPoint (fst (vertex (footprint Sin Cos) i) * unit)
                (snd (vertex (footprint Sin Cos) i) * unit) 0.
Proof.
  intros A. split; [reflexivity |]. split; [reflexivity |].
  assert (E : entry_for 0 = Some (mkEntry 0 0 0 1 0)) by reflexivity.
  destruct (accurate_entry_for Sin Cos _ _ A E) as [Ae Ea].
  assert (K : identity_checks Sin Cos = true).
  { apply (all_trig_sound Sin Cos _ identity_checks (accurate_entry30 _ _ A) Ae).
    - intros S C S' C' E1 E2 E3 E4. unfold identity_checks.
      assert (F : scaled_footprint S C = scaled_footprint S' C').
      { unfold scaled_footprint, cos30, sin30.
        rewrite angle30 in E1, E2. rewrite E1, E2. reflexivity. }
      rewrite F.
      apply (reads_two_Kite _ 0 (0, 0) 0 false
               (fun r => match r with
                         | Ok b => Quad_eqb (b0 b) (scaled_footprint S' C')
                         | Fatal _ => false
                         end) Ea S C S' C' E1 E2 E3 E4).
    - vm_compute. reflexivity. }
  unfold identity_checks in K.
  destruct (Kite Sin Cos (0, 0) 0 0 false) as [b | msg]; [| discriminate K].
  apply Quad_eqb_eq in K. exists b. split; [reflexivity |].
  intros i Hi. rewrite K.
  destruct i as [| [| [| [| i]]]]; try lia; reflexivity.
Qed.

Lemma Kite_identity_exact_witness :
  accurate Cephes.sin Cephes.cos /\
  exists b : Box float,
    Kite Cephes.sin Cephes.cos (0, 0) 0 0 false = Ok b /\
    Quad_at (b0 b) 2 = mkPoint (1 * unit) (sqrt3 * unit) 0.
Proof.
  assert (A : accurate Cephes.sin Cephes.cos) by (vm_compute; reflexivity).
  split; [exact A |].
  destruct (Kite_identity_exact Cephes.sin Cephes.cos A) as [_ [_ [b [K V]]]].
  exists b. split; [exact K |]. apply (V 2%nat). lia.
Defined.

(** ** The two facets of a quad *)


(** Convexity is not enough either: the square of side 1e-100 is valid
    in the same sense and convex, but the squares of its cross product
    underflow to 0, the norm is 0, and both normals come out as
    (NaN, NaN, +Inf). *)
Lemma tiny_square_normals :
  planar_simple_ccw tiny_square = true /\
  has_nan (Facet_Normal (fst (Quad_Facets tiny_square))) = true /\
  z (Facet_Normal (fst (Quad_Facets tiny_square))) = infinity /\
  facets_agree tiny_square = false.
Proof. repeat split; vm_compute; reflexivity. Qed.

(** ** Text output *)

Lemma append_assoc (s t u : string) : ((s ++ t) ++ u = s ++ t ++ u)%string.
Proof. induction s as [| c s IH]; simpl; [reflexivity | now rewrite IH]. Qed.

Lemma fold_left_append {A : Type} (g : A -> string) (l : list A) (b : string) :
  fold_left (fun b a => (b ++ g a)%string) l b = (b ++ join (map g l))%string.
Proof.
  revert b. induction l as [| a l IH]; intros b; simpl.
  - induction b as [| c b IHb]; simpl; [reflexivity | now rewrite <- IHb].
  - rewrite IH. apply append_assoc.
Qed.

Lemma is_finite_Prim2SF (c : float) :
  is_finite c = true ->
  (exists s, Prim2SF c = S754_zero s) \/ (exists s m e, Prim2SF c = S754_finite s m e).
Proof.
  unfold is_finite, is_nan, is_infinity.
  rewrite !FloatAxioms.eqb_spec, FloatAxioms.abs_spec.
  change (Prim2SF infinity) with (S754_infinity false).
  destruct (Prim2SF c) as [s | s | | s m e]; simpl; try discriminate; eauto.
  destruct s; discriminate.
Qed.

Lemma is_digit_digit_char (v : Z) : is_digit (Fmt.digit_char v) = true.
Proof.
  unfold Fmt.digit_char.
  assert (B : (0 <= v mod 10 < 10)%Z) by (apply Z.mod_pos_bound; lia).
  assert (N : (Z.to_nat (v mod 10) < 10)%nat) by lia.
  revert N. generalize (Z.to_nat (v mod 10)). intros n N.
  do 10 (destruct n as [| n]; [reflexivity |]). lia.
Qed.

Lemma strip_minus_digit (c : ascii) (r : list ascii) :
  is_digit c = true -> strip_minus (c :: r) = c :: r.
Proof.
  destruct c as [[] [] [] [] [] [] [] []]; try reflexivity; discriminate.
Qed.

Lemma is_sci6_sci_text (neg : bool) (n k : Z) :
  is_sci6 (Fmt.sci_text neg n k) = true.
Proof.
  unfold Fmt.sci_text, is_sci6.
  destruct neg; cbn [list_ascii_of_string];
    [ change (strip_minus ("-"%char :: ?l)) with l
    | rewrite strip_minus_digit by apply is_digit_digit_char ];
    destruct (Z.ltb k 0), (Z.ltb (Z.abs k) 100);
    cbn [list_ascii_of_string forallb]; rewrite !is_digit_digit_char; reflexivity.
Qed.

(** The reference formatter does what is assumed of [fmt]. *)
Lemma Fmt_formats_scientific : formats_scientific Fmt.format_e6.
Proof.
  intros c F. unfold Fmt.format_e6.
  destruct (is_finite_Prim2SF c F) as [[s ->] | [s [m [e ->]]]].
  - apply is_sci6_sci_text.
  - cbv zeta. match goal with |- context [if ?b then _ else _] =>
      destruct b end; apply is_sci6_sci_text.
Qed.

Section OutputProofs.
Variables Sin Cos : float -> float.
Variable format_e6 : float -> string.
Hypothesis Hfmt : formats_scientific format_e6.

Lemma Point_String_text (p : Point float) :
  finite_point p = true -> is_point_text (Point_String format_e6 p).
Proof.
  unfold finite_point. rewrite !andb_true_iff. intros [[Fx Fy] Fz].
  exists (format_e6 (x p)), (format_e6 (y p)), (format_e6 (z p)).
  split; [apply Hfmt; exact Fx |].
  split; [apply Hfmt; exact Fy |].
  split; [apply Hfmt; exact Fz | reflexivity].
Qed.

Lemma Facet_String_record (f : Facet float) :
  finite_facet f = true -> is_facet_record (Facet_String format_e6 f).
Proof.
  unfold finite_facet, facet_points. cbn [forallb].
  rewrite !andb_true_iff. intros [Fn [F0 [F1 [F2 _]]]].
  exists (Point_String format_e6 (Facet_Normal f)),
         (Point_String format_e6 (f0 f)),
         (Point_String format_e6 (f1 f)),
         (Point_String format_e6 (f2 f)).
  split; [apply Point_String_text; assumption |].
  split; [apply Point_String_text; assumption |].
  split; [apply Point_String_text; assumption |].
  split; [apply Point_String_text; assumption |].
  unfold Facet_String. cbn [fold_left].
  rewrite !append_assoc. reflexivity.
Qed.

Lemma render_solid (name : string) (k : kite) (ins : float) (rf : bool) :
  kite_checks k ins rf Sin Cos = true ->
  exists s, render Sin Cos format_e6 name k ins rf = Ok s /\
            is_solid_block name s.
Proof.
  unfold kite_checks, render.
  destruct (Kite Sin Cos (pos k) (rot k) ins rf) as [b | msg];
    [| discriminate].
  unfold box_checks. rewrite andb_true_iff. intros [F _].
  cbn [bind]. eexists. split; [reflexivity |].
  exists (map (Facet_String format_e6) (Box_Facets b)). split; [| split].
  - rewrite length_map. reflexivity.
  - rewrite forallb_forall in F. apply Forall_forall. intros r I.
    apply in_map_iff in I. destruct I as [f [<- I]].
    apply Facet_String_record. apply F. exact I.
  - rewrite (fold_left_append (fun f => (Facet_String format_e6 f ++ nl)%string)).
    rewrite map_map, !append_assoc. reflexivity.
Qed.

Lemma main_loop_ok (rf : bool) (ks : list kite) :
  (forall k ins, In k ks -> In ins [0; inset] ->
     kite_checks k ins rf Sin Cos = true) ->
  forall i : nat,
  exists out : list string,
    main_loop Sin Cos format_e6 i ks rf = (out, None) /\
    List.length out = (2 * List.length ks)%nat /\
    forall j k, nth_error ks j = Some k ->
      exists base groove : string,
        render Sin Cos format_e6 (kite_name (i + j)) k 0 rf = Ok base /\
        render Sin Cos format_e6 (kite_inset_name (i + j)) k inset rf = Ok groove /\
        is_solid_block (kite_name (i + j)) base /\
        is_solid_block (kite_inset_name (i + j)) groove /\
        nth_error out (2 * j) = Some (base ++ nl)%string /\
        nth_error out (2 * j + 1) = Some (groove ++ nl)%string.
Proof.
  induction ks as [| k ks IH]; intros C i.
  - exists []. split; [reflexivity |]. split; [reflexivity |].
    intros j k E. destruct j; discriminate E.
  - destruct (render_solid (kite_name i) k 0 rf) as [s0 [R0 B0]].
    { apply C; simpl; auto. }
    destruct (render_solid (kite_inset_name i) k inset rf) as [s1 [R1 B1]].
    { apply C; simpl; auto. }
    destruct (IH (fun k' ins I J => C k' ins (or_intror I) J) (S i))
      as [out [M [L N]]].
    exists ((s0 ++ nl)%string :: (s1 ++ nl)%string :: out).
    split; [| split].
    + cbn [main_loop]. rewrite R0, R1, M. reflexivity.
    + cbn [List.length]. rewrite L. lia.
    + intros j k' E. destruct j as [| j].
      * injection E as <-. rewrite Nat.add_0_r.
        exists s0, s1. split; [exact R0 |]. split; [exact R1 |].
        split; [exact B0 |]. split; [exact B1 |]. split; reflexivity.
      * cbn [nth_error] in E. destruct (N j k' E) as [base [groove P]].
        replace (i + S j)%nat with (S i + j)%nat by lia.
        exists base, groove.
        replace (2 * S j)%nat with (S (S (2 * j))) by lia.
        replace (S (S (2 * j)) + 1)%nat with (S (S (2 * j + 1))) by lia.
        exact P.
Qed.
End OutputProofs.

Lemma all_kites_check_true :
  forallb (fun k =>
    forallb (fun ins =>
      forallb (fun rf => kite_checks_all_trig k ins rf) [false; true])
      [0; inset]) kites = true.
Proof. vm_compute. reflexivity. Qed.

(** Every call of [Kite] that [main] makes returns a box of finite
    numbers. *)
Lemma all_kites_checked (Sin Cos : float -> float) :
  accurate Sin Cos ->
  forall (rf : bool) (k : kite) (ins : float),
    In k kites -> In ins [0; inset] -> kite_checks k ins rf Sin Cos = true.
Proof.
  intros A rf k ins Ik Ii.
  pose proof all_kites_check_true as X.
  rewrite forallb_forall in X. specialize (X k Ik).
  rewrite forallb_forall in X. specialize (X ins Ii).
  rewrite forallb_forall in X.
  assert (Ir : In rf [false; true]) by (destruct rf; simpl; auto).
  specialize (X rf Ir). unfold kite_checks_all_trig in X.
  destruct (entry_for (rot k)) as [e |] eqn:E; [| discriminate X].
  destruct (accurate_entry_for Sin Cos _ _ A E) as [Ae Ea].
  apply (all_trig_sound Sin Cos e (kite_checks k ins rf)
           (accurate_entry30 _ _ A) Ae); [| exact X].
  unfold kite_checks.
  apply (reads_two_Kite e (rot k) (pos k) ins rf
           (fun r => match r with
                     | Ok b => box_checks b
                     | Fatal _ => false
                     end)).
  exact Ea.
Qed.



(** C9: a full run prints exactly 16 solid blocks and stops normally: for
    each of the 8 placements, in order, the block of the base solid
    (inset 0), then that of the groove solid (inset 0.03).  A block is
    the header naming the solid followed by exactly 12 facet records, and
    every coordinate in it is in decimal scientific notation with 6
    digits after the point. *)
Theorem main_emits_sixteen_solids
    (Sin Cos : float -> float) (format_e6 : float -> string) (reflect : bool) :
  accurate Sin Cos -> formats_scientific format_e6 ->
  List.length kites = 8%nat /\ inset = 0.03 /\
  map kite_name (seq 0 8) =
    ["kite0"; "kite1"; "kite2"; "kite3"; "kite4"; "kite5"; "kite6"; "kite7"]%string /\
  map kite_inset_name (seq 0 8) =
    ["kite-inset0"; "kite-inset1"; "kite-inset2"; "kite-inset3";
     "kite-inset4"; "kite-inset5"; "kite-inset6"; "kite-inset7"]%string /\
  exists out : list string,
    main Sin Cos format_e6 reflect = (out, None) /\
    List.length out = 16%nat /\
    forall i k, nth_error kites i = Some k ->
      exists base groove : string,
        render Sin Cos format_e6 (kite_name i) k 0 reflect = Ok base /\
        render Sin Cos format_e6 (kite_inset_name i) k inset reflect = Ok groove /\
        is_solid_block (kite_name i) base /\
        is_solid_block (kite_inset_name i) groove /\
        nth_error out (2 * i) = Some (base ++ nl)%string /\
        nth_error out (2 * i + 1) = Some (groove ++ nl)%string.
Proof.
  intros A F. repeat (split; [reflexivity |]).
  destruct (main_loop_ok Sin Cos format_e6 F reflect kites
              (fun k ins I J => all_kites_checked Sin Cos A reflect k ins I J) 0%nat)
    as [out [M [L N]]].
  exists out. split; [exact M |]. split; [exact L |].
  intros i k E. exact (N i k E).
Qed.

Lemma main_emits_sixteen_solids_witness :
  exists out : list string,
    main Cephes.sin Cephes.cos Fmt.format_e6 false = (out, None) /\
    List.length out = 16%nat.
Proof.
  assert (A : accurate Cephes.sin Cephes.cos) by (vm_compute; reflexivity).
  destruct (main_emits_sixteen_solids Cephes.sin Cephes.cos Fmt.format_e6 false
              A Fmt_formats_scientific) as [_ [_ [_ [_ [out [M [L _]]]]]]].
  exists out. split; assumption.
Defined.

(* ================================================================= *)
(** * Further properties of the code *)

(** ** Zeros and NaN in binary64 arithmetic *)

Lemma sub_self_zero_or_nan (a : float) : zero_or_nan (a - a).
Proof.
  unfold zero_or_nan. rewrite FloatAxioms.sub_spec. unfold SF64sub, SFsub.
  destruct (Prim2SF a) as [s | s | | s m e].
  - right. destruct s; eauto.
  - left. destruct s; reflexivity.
  - left. reflexivity.
  - right. cbv zeta. rewrite Z.sub_diag. simpl. eauto.
Qed.

Lemma sub_self_finite (a : float) : is_finite a = true -> a - a = 0.
Proof.
  intros F. apply Prim2SF_inj. rewrite Prim2SF_zero.
  rewrite FloatAxioms.sub_spec. unfold SF64sub, SFsub.
  destruct (is_finite_Prim2SF a F) as [[s ->] | [s [m [e ->]]]].
  - destruct s; reflexivity.
  - cbv zeta. rewrite Z.sub_diag. reflexivity.
Qed.

Lemma mul_zero_or_nan_l (a b : float) : zero_or_nan a -> zero_or_nan (a * b).
Proof.
  unfold zero_or_nan. rewrite FloatAxioms.mul_spec. unfold SF64mul, SFmul.
  intros [-> | [s ->]]; [left; reflexivity |].
  destruct (Prim2SF b) as [s' | s' | | s' m e]; eauto.
Qed.

Lemma mul_zero_or_nan_r (a b : float) : zero_or_nan b -> zero_or_nan (a * b).
Proof.
  unfold zero_or_nan. rewrite FloatAxioms.mul_spec. unfold SF64mul, SFmul.
  intros [-> | [s ->]].
  - left. destruct (Prim2SF a); reflexivity.
  - destruct (Prim2SF a) as [s' | s' | | s' m e]; eauto.
Qed.

Lemma sub_zero_or_nan (a b : float) :
  zero_or_nan a -> zero_or_nan b -> zero_or_nan (a - b).
Proof.
  unfold zero_or_nan. rewrite FloatAxioms.sub_spec. unfold SF64sub, SFsub.
  intros [Ha | [s Ha]] [Hb | [s' Hb]]; rewrite Ha; try rewrite Hb;
    try (left; reflexivity).
  right. destruct s, s'; eauto.
Qed.

Lemma add_zero_or_nan (a b : float) :
  zero_or_nan a -> zero_or_nan b -> zero_or_nan (a + b).
Proof.
  unfold zero_or_nan. rewrite FloatAxioms.add_spec. unfold SF64add, SFadd.
  intros [Ha | [s Ha]] [Hb | [s' Hb]]; rewrite Ha; try rewrite Hb;
    try (left; reflexivity).
  right. destruct s, s'; eauto.
Qed.

Lemma sqrt_zero_or_nan (a : float) : zero_or_nan a -> zero_or_nan (PrimFloat.sqrt a).
Proof.
  unfold zero_or_nan. rewrite FloatAxioms.sqrt_spec. unfold SF64sqrt, SFsqrt.
  intros [-> | [s ->]]; eauto.
Qed.

Lemma div_zero_or_nan (a b : float) :
  zero_or_nan a -> zero_or_nan b -> is_nan (a / b) = true.
Proof.
  unfold zero_or_nan, is_nan. rewrite FloatAxioms.eqb_spec, FloatAxioms.div_spec.
  unfold SF64div, SFdiv.
  intros [Ha | [s Ha]] [Hb | [s' Hb]]; rewrite Ha; try rewrite Hb; reflexivity.
Qed.

Lemma zero_cross_nan_normal (f : Facet float) :
  zero_or_nan (x (Facet_cross f)) -> zero_or_nan (y (Facet_cross f)) ->
  zero_or_nan (z (Facet_cross f)) -> nan_point (Facet_Normal f).
Proof.
  intros Zx Zy Zz. unfold Facet_Normal. cbv zeta.
  set (c := Facet_cross f) in *.
  assert (N : zero_or_nan
                (PrimFloat.sqrt (x c * x c + y c * y c + z c * z c))).
  { apply sqrt_zero_or_nan. repeat apply add_zero_or_nan;
      apply mul_zero_or_nan_l; assumption. }
  repeat split; cbn; apply div_zero_or_nan; assumption.
Qed.


Lemma div_zero_or_nan_l (a b : float) : zero_or_nan a -> zero_or_nan (a / b).
Proof.
  unfold zero_or_nan. rewrite FloatAxioms.div_spec. unfold SF64div, SFdiv.
  intros [Ha | [s Ha]]; rewrite Ha; [left; reflexivity |].
  destruct (Prim2SF b) as [s' | s' | | s' m e]; eauto.
Qed.

Lemma zero_is_zero_or_nan : zero_or_nan 0.
Proof. right. exists false. reflexivity. Qed.

(** A product, difference or quotient one operand of which is [a - a]
    or the constant 0. *)
Ltac zn :=
  first
    [ apply sub_self_zero_or_nan
    | exact zero_is_zero_or_nan
    | apply mul_zero_or_nan_l; zn
    | apply mul_zero_or_nan_r; zn
    | apply sub_zero_or_nan; zn
    | apply div_zero_or_nan_l; zn ].

(** ** NaN goes through every operation *)

Lemma Prim2SF_is_nan (a : float) : Prim2SF a = S754_nan -> is_nan a = true.
Proof. intros N. unfold is_nan. rewrite FloatAxioms.eqb_spec, N. reflexivity. Qed.

Lemma nan_sub_l (a b : float) : is_nan a = true -> is_nan (a - b) = true.
Proof.
  intros N. apply is_nan_Prim2SF in N. apply Prim2SF_is_nan.
  rewrite FloatAxioms.sub_spec. unfold SF64sub, SFsub. rewrite N. reflexivity.
Qed.

Lemma nan_sub_r (a b : float) : is_nan b = true -> is_nan (a - b) = true.
Proof.
  intros N. apply is_nan_Prim2SF in N. apply Prim2SF_is_nan.
  rewrite FloatAxioms.sub_spec. unfold SF64sub, SFsub. rewrite N.
  destruct (Prim2SF a); reflexivity.
Qed.

Lemma nan_add_l (a b : float) : is_nan a = true -> is_nan (a + b) = true.
Proof.
  intros N. apply is_nan_Prim2SF in N. apply Prim2SF_is_nan.
  rewrite FloatAxioms.add_spec. unfold SF64add, SFadd. rewrite N. reflexivity.
Qed.

Lemma nan_add_r (a b : float) : is_nan b = true -> is_nan (a + b) = true.
Proof.
  intros N. apply is_nan_Prim2SF in N. apply Prim2SF_is_nan.
  rewrite FloatAxioms.add_spec. unfold SF64add, SFadd. rewrite N.
  destruct (Prim2SF a); reflexivity.
Qed.

Lemma nan_mul_l (a b : float) : is_nan a = true -> is_nan (a * b) = true.
Proof.
  intros N. apply is_nan_Prim2SF in N. apply Prim2SF_is_nan.
  rewrite FloatAxioms.mul_spec. unfold SF64mul, SFmul. rewrite N. reflexivity.
Qed.

Lemma nan_mul_r (a b : float) : is_nan b = true -> is_nan (a * b) = true.
Proof.
  intros N. apply is_nan_Prim2SF in N. apply Prim2SF_is_nan.
  rewrite FloatAxioms.mul_spec. unfold SF64mul, SFmul. rewrite N.
  destruct (Prim2SF a); reflexivity.
Qed.

Lemma nan_sqrt (a : float) : is_nan a = true -> is_nan (PrimFloat.sqrt a) = true.
Proof.
  intros N. apply is_nan_Prim2SF in N. apply Prim2SF_is_nan.
  rewrite FloatAxioms.sqrt_spec. unfold SF64sqrt, SFsqrt. rewrite N. reflexivity.
Qed.

Lemma nan_div_r (a b : float) : is_nan b = true -> is_nan (a / b) = true.
Proof.
  intros N. apply is_nan_Prim2SF in N. apply Prim2SF_is_nan.
  rewrite FloatAxioms.div_spec. unfold SF64div, SFdiv. rewrite N.
  destruct (Prim2SF a); reflexivity.
Qed.

(** A difference of two products one operand of which is NaN. *)
Ltac nn :=
  first
    [ assumption
    | apply nan_sub_l; nn
    | apply nan_sub_r; nn
    | apply nan_mul_l; nn
    | apply nan_mul_r; nn ].

Lemma has_nan_cases (p : Point float) :
  has_nan p = true ->
  is_nan (x p) = true \/ is_nan (y p) = true \/ is_nan (z p) = true.
Proof.
  unfold has_nan. intros N.
  apply orb_true_iff in N. destruct N as [N | N]; [| auto].
  apply orb_true_iff in N. destruct N as [N | N]; auto.
Qed.

(** ** Facets without a normal *)

Lemma repeats_first_zero_cross (f : Facet float) :
  repeats_first_vertex f ->
  zero_or_nan (x (Facet_cross f)) /\ zero_or_nan (y (Facet_cross f)) /\
  zero_or_nan (z (Facet_cross f)).
Proof.
  destruct f as [[ax ay az] [bx by' bz] [cx cy cz]].
  unfold repeats_first_vertex. cbn [f0 f1 f2].
  intros [E | E]; injection E as -> -> ->;
    unfold Facet_cross, Point_sub; cbn; repeat split; zn.
Qed.

Lemma nan_vertex_nan_cross (f : Facet float) :
  nan_vertex f ->
  is_nan (x (Facet_cross f)) = true \/ is_nan (y (Facet_cross f)) = true \/
  is_nan (z (Facet_cross f)) = true.
Proof.
  destruct f as [[ax ay az] [bx by' bz] [cx cy cz]].
  unfold nan_vertex. cbn [f0 f1 f2].
  intros [N | [N | N]]; apply has_nan_cases in N; cbn [x y z] in N;
    destruct N as [N | [N | N]];
    unfold Facet_cross, Point_sub; cbn;
    first [left; nn | right; left; nn | right; right; nn].
Qed.

Lemma nan_cross_nan_normal (f : Facet float) :
  is_nan (x (Facet_cross f)) = true \/ is_nan (y (Facet_cross f)) = true \/
  is_nan (z (Facet_cross f)) = true ->
  nan_point (Facet_Normal f).
Proof.
  intros N. unfold Facet_Normal. cbv zeta.
  set (c := Facet_cross f) in *.
  assert (M : is_nan (PrimFloat.sqrt (x c * x c + y c * y c + z c * z c)) = true).
  { apply nan_sqrt. destruct N as [N | [N | N]].
    - apply nan_add_l, nan_add_l, nan_mul_l. exact N.
    - apply nan_add_l, nan_add_r, nan_mul_l. exact N.
    - apply nan_add_r, nan_mul_l. exact N. }
  repeat split; cbn; apply nan_div_r; exact M.
Qed.

(** X1: [Facet.Normal] has no error path.  For a facet whose second or
    third vertex is its first vertex, and for a facet one of whose
    coordinates is NaN, the three components of the normal are NaN,
    whatever the other coordinates are (finite or not). *)
Theorem Facet_Normal_repeated_or_nan (f : Facet float) :
  repeats_first_vertex f \/ nan_vertex f -> nan_point (Facet_Normal f).
Proof.
  intros [R | N].
  - destruct (repeats_first_zero_cross f R) as [Zx [Zy Zz]].
    apply zero_cross_nan_normal; assumption.
  - apply nan_cross_nan_normal, nan_vertex_nan_cross. exact N.
Qed.

Lemma Facet_Normal_repeated_or_nan_witness :
  nan_point (Facet_Normal (mkFacet (mkPoint 1 2 3) (mkPoint 1 2 3) (mkPoint 4 5 6))) /\
  nan_point (Facet_Normal (mkFacet (mkPoint 0 0 0) (mkPoint 1 0 nan) (mkPoint 0 1 0))).
Proof.
  split; apply Facet_Normal_repeated_or_nan.
  - left. left. reflexivity.
  - right. right. left. reflexivity.
Defined.

(** X2: the difference of a point with itself has every component a
    zero or NaN, and is exactly (0, 0, 0) when the point is finite. *)
Theorem Point_sub_self (p : Point float) :
  (zero_or_nan (x (Point_sub p p)) /\ zero_or_nan (y (Point_sub p p)) /\
   zero_or_nan (z (Point_sub p p))) /\
  (finite_point p = true -> Point_sub p p = mkPoint 0 0 0).
Proof.
  destruct p as [px py pz]. unfold Point_sub, finite_point. cbn. split.
  - repeat split; apply sub_self_zero_or_nan.
  - intros F. apply andb_true_iff in F. destruct F as [F Fz].
    apply andb_true_iff in F. destruct F as [Fx Fy].
    rewrite (sub_self_finite px Fx), (sub_self_finite py Fy),
      (sub_self_finite pz Fz). reflexivity.
Qed.

Lemma Point_sub_self_witness :
  Point_sub (mkPoint 1 2 3) (mkPoint 1 2 3) = mkPoint 0 0 0.
Proof. apply (Point_sub_self (mkPoint 1 2 3)). reflexivity. Defined.

(** ** What [NewBox] looks at *)

(** X3: a quad whose first facet repeats its first vertex, or holds a
    NaN coordinate, passes either check of [NewBox]: whether [NewBox]
    stops is then decided by the other quad alone. *)
Theorem NewBox_accepts_repeated_or_nan (q : Quad float) :
  repeats_first_vertex (fst (Quad_Facets q)) \/ nan_vertex (fst (Quad_Facets q)) ->
  forall other : Quad float,
    is_fatal (NewBox q other) = (first_normal_z other <=? 0) /\
    is_fatal (NewBox other q) = (0 <=? first_normal_z other).
Proof.
  intros D other.
  assert (N : is_nan (first_normal_z q) = true).
  { unfold first_normal_z. destruct D as [R | D].
    - destruct (repeats_first_zero_cross _ R) as [Zx [Zy Zz]].
      destruct (zero_cross_nan_normal _ Zx Zy Zz) as [_ [_ N]]. exact N.
    - destruct (nan_cross_nan_normal _ (nan_vertex_nan_cross _ D)) as [_ [_ N]].
      exact N. }
  destruct (nan_leb_zero _ N) as [L1 L2].
  rewrite !NewBox_fatal. rewrite L1, L2, orb_false_r. split; reflexivity.
Qed.

Lemma NewBox_accepts_repeated_or_nan_witness :
  is_fatal (NewBox flat_quad sample_top) = false /\
  is_fatal (NewBox sample_bottom flat_quad) = false.
Proof.
  destruct (NewBox_accepts_repeated_or_nan flat_quad) with (other := sample_top)
    as [E _]; [left; left; reflexivity |].
  destruct (NewBox_accepts_repeated_or_nan flat_quad) with (other := sample_bottom)
    as [_ E']; [left; left; reflexivity |].
  rewrite E, E'. split; reflexivity.
Defined.

Lemma first_normal_z_at_height (h : float) (q : Quad float) :
  is_finite h = true ->
  first_normal_z (at_height h q) = first_normal_z (at_height 0 q).
Proof.
  intros F. unfold first_normal_z, at_height, Quad_Facets, Facet_Normal,
    Facet_cross, Point_sub. cbn.
  rewrite (sub_self_finite h F). reflexivity.
Qed.

(** X4: the checks of [NewBox] never read the fourth vertex of either
    quad, and for two level quads they do not depend on the (finite)
    heights: a top that lies below the bottom is accepted like one that
    lies above it. *)
Theorem NewBox_reads_plan_of_three_vertices (q0 q1 : Quad float) :
  (forall p p' : Point float,
     is_fatal (NewBox (with_fourth q0 p) (with_fourth q1 p')) =
     is_fatal (NewBox q0 q1)) /\
  (forall h h' : float, is_finite h = true -> is_finite h' = true ->
     is_fatal (NewBox (at_height h q0) (at_height h' q1)) =
     is_fatal (NewBox (at_height 0 q0) (at_height 0 q1))).
Proof.
  split.
  - intros p p'. rewrite !NewBox_fatal. reflexivity.
  - intros h h' F F'. rewrite !NewBox_fatal.
    rewrite (first_normal_z_at_height h q0 F), (first_normal_z_at_height h' q1 F').
    reflexivity.
Qed.

Lemma NewBox_reads_plan_of_three_vertices_witness :
  is_fatal (NewBox (at_height 5 sample_bottom) (at_height (-7) sample_top)) =
  is_fatal (NewBox (at_height 0 sample_bottom) (at_height 0 sample_top)).
Proof.
  apply (NewBox_reads_plan_of_three_vertices sample_bottom sample_top);
    reflexivity.
Defined.

(** ** The surface that [Box.Facets] lists *)

Ltac find_in := solve [repeat (first [left; reflexivity | right])].

(** X5: the twelve facets use the eight vertices of the box and no other
    point, every vertex lies on a facet, and every directed edge of a
    facet is an edge of a facet in the opposite direction: the facets
    close up, with one winding. *)
Theorem Box_Facets_closed_surface {T : Type} (b : Box T) :
  (forall f p, In f (Box_Facets b) -> In p (Facet_vertices f) -> In p (Box_vertices b)) /\
  (forall p, In p (Box_vertices b) ->
     exists f, In f (Box_Facets b) /\ In p (Facet_vertices f)) /\
  (forall p r, In (p, r) (Box_edges b) -> In (r, p) (Box_edges b)).
Proof.
  destruct b as [[a0 a1 a2 a3] [c0 c1 c2 c3]].
  split; [| split].
  - intros f p Hf Hp. cbn in Hf.
    repeat (destruct Hf as [Hf | Hf]; [subst f; cbn in Hp; cbn;
      repeat (destruct Hp as [Hp | Hp]; [subst p; find_in |]); contradiction |]).
    contradiction.
  - intros p Hp. cbn in Hp.
    repeat (destruct Hp as [Hp | Hp]; [subst p |]); try contradiction.
    all: first
      [ exists (mkFacet a0 a1 a2); split; find_in
      | exists (mkFacet a2 a3 a0); split; find_in
      | exists (mkFacet c0 c1 c2); split; find_in
      | exists (mkFacet c2 c3 c0); split; find_in ].
  - intros p r H. cbn in H. cbn.
    repeat (destruct H as [H | H]; [injection H as <- <-; find_in |]).
    contradiction.
Qed.

Lemma NoDup_Box_edges {T : Type} (b : Box T) :
  NoDup (Box_vertices b) -> NoDup (Box_edges b).
Proof.
  destruct b as [[a0 a1 a2 a3] [c0 c1 c2 c3]].
  intros N. unfold Box_vertices in N. cbn in N.
  repeat match goal with
  | H : NoDup (_ :: _) |- _ => inversion H; clear H; subst
  end.
  cbn in *.
  repeat match goal with
  | H : ~ (_ \/ _) |- _ => apply Decidable.not_or in H; destruct H
  end.
  unfold Box_edges, Box_Facets, Facet_edges. cbn.
  repeat (apply NoDup_cons;
          [ cbn; intros Hin; repeat (destruct Hin as [Hin | Hin]; [congruence |]);
            exact Hin
          | ]).
  apply NoDup_nil.
Qed.

Lemma distinct_points_NoDup (l : list (Point float)) :
  distinct_points l = true -> NoDup l.
Proof.
  induction l as [| p r IH]; cbn; intros D; [constructor |].
  apply andb_true_iff in D. destruct D as [D1 D2]. constructor; [| auto].
  intros I. apply negb_true_iff in D1.
  assert (X : existsb (Point_eqb p) r = true).
  { apply existsb_exists. exists p. split; [exact I | now apply Point_eqb_eq]. }
  congruence.
Qed.

(** X6: when the eight vertices of a box are distinct, the 36 directed
    edges of its twelve facets are distinct: no edge is walked twice in
    the same direction. *)
Theorem Box_edges_once {T : Type} (b : Box T) :
  NoDup (Box_vertices b) ->
  NoDup (Box_edges b) /\ List.length (Box_edges b) = 36%nat.
Proof.
  intros N. split; [exact (NoDup_Box_edges b N) |].
  destruct b as [[a0 a1 a2 a3] [c0 c1 c2 c3]]. reflexivity.
Qed.

Lemma Box_edges_once_witness :
  NoDup (Box_edges (mkBox sample_bottom sample_top)).
Proof.
  apply (Box_edges_once (mkBox sample_bottom sample_top)).
  apply distinct_points_NoDup. reflexivity.
Defined.

(** ** The stages of [Kite] *)

Lemma Kite_vertices_reflect (Sin Cos : float -> float) loc d ins :
  Kite_vertices Sin Cos loc d ins true =
  reflect_all (Kite_vertices Sin Cos loc d ins false).
Proof. reflexivity. Qed.

(** X9: when [Kite] returns a box with and without the reflect flag, the
    reflected box is the mirror image in the plane X = 0 of the other
    one, its vertices listed in the opposite order: vertex i of the
    bottom is the image of vertex 3 - i, vertex i of the top the image of
    vertex (5 - i) mod 4. *)
Theorem Kite_reflect_mirror (Sin Cos : float -> float)
    (loc : float * float) (rotationDegrees : Z) (inset : float)
    (b b' : Box float) :
  Kite Sin Cos loc rotationDegrees inset false = Ok b ->
  Kite Sin Cos loc rotationDegrees inset true = Ok b' ->
  forall i, (i < 4)%nat ->
    Quad_at (b0 b') i = mirror (Quad_at (b0 b) (3 - i)) /\
    Quad_at (b1 b') i = mirror (Quad_at (b1 b) ((5 - i) mod 4)).
Proof.
  unfold Kite. rewrite Kite_vertices_reflect.
  destruct (Kite_vertices Sin Cos loc rotationDegrees inset false)
    as [[[[x0 y0] [x1 y1]] [x2 y2]] [x3 y3]].
  cbn [reflect_all]. intros K K' i Hi.
  apply NewBox_Ok in K, K'. subst b b'.
  destruct i as [| [| [| [| i]]]]; try lia; split; reflexivity.
Qed.

Lemma Kite_reflect_mirror_witness :
  exists b b' : Box float,
    Kite Cephes.sin Cephes.cos (0, 0) (-60) 0 false = Ok b /\
    Kite Cephes.sin Cephes.cos (0, 0) (-60) 0 true = Ok b' /\
    Quad_at (b0 b') 0 = mirror (Quad_at (b0 b) 3).
Proof.
  assert (K : exists b, Kite Cephes.sin Cephes.cos (0, 0) (-60) 0 false = Ok b)
    by (vm_compute; eexists; reflexivity).
  assert (K' : exists b, Kite Cephes.sin Cephes.cos (0, 0) (-60) 0 true = Ok b)
    by (vm_compute; eexists; reflexivity).
  destruct K as [b K], K' as [b' K'].
  exists b, b'. split; [exact K | split; [exact K' |]].
  apply (Kite_reflect_mirror _ _ _ _ _ b b' K K' 0%nat). lia.
Defined.

(** X10: the caps of every box that [Kite] returns are level, for any
    input and any sine and cosine: the X and Y components of the
    normals of the two bottom facets and of the two top facets are zeros
    or NaN. *)
Theorem Kite_caps_level (Sin Cos : float -> float)
    (loc : float * float) (rotationDegrees : Z) (inset : float) (reflect : bool)
    (b : Box float) :
  Kite Sin Cos loc rotationDegrees inset reflect = Ok b ->
  forall f, In f (bottom_cap b ++ top_cap b) ->
    zero_or_nan (x (Facet_Normal f)) /\ zero_or_nan (y (Facet_Normal f)).
Proof.
  unfold Kite.
  destruct (Kite_vertices Sin Cos loc rotationDegrees inset reflect)
    as [[[[x0 y0] [x1 y1]] [x2 y2]] [x3 y3]].
  intros K. apply NewBox_Ok in K. subst b.
  intros f I. cbn in I.
  repeat (destruct I as [I | I]; [subst f; split; cbn; zn |]).
  contradiction.
Qed.

Lemma Kite_caps_level_witness :
  exists b : Box float,
    Kite Cephes.sin Cephes.cos (0, 0) (-60) 0 false = Ok b /\
    forall f, In f (bottom_cap b ++ top_cap b) ->
      zero_or_nan (x (Facet_Normal f)) /\ zero_or_nan (y (Facet_Normal f)).
Proof.
  assert (K : exists b, Kite Cephes.sin Cephes.cos (0, 0) (-60) 0 false = Ok b)
    by (vm_compute; eexists; reflexivity).
  destruct K as [b K]. exists b. split; [exact K |].
  exact (Kite_caps_level _ _ _ _ _ _ b K).
Defined.

Lemma Kite_fatal_height (Sin Cos : float -> float) loc d ins ins' rf :
  Kite_vertices Sin Cos loc d ins rf = Kite_vertices Sin Cos loc d ins' rf ->
  is_finite ((0.2 + ins) * unit) = true ->
  is_finite ((0.2 + ins') * unit) = true ->
  is_fatal (Kite Sin Cos loc d ins rf) = is_fatal (Kite Sin Cos loc d ins' rf).
Proof.
  intros V F F'. unfold Kite. rewrite V.
  destruct (Kite_vertices Sin Cos loc d ins' rf)
    as [[[[x0 y0] [x1 y1]] [x2 y2]] [x3 y3]].
  cbv zeta. rewrite !NewBox_fatal. f_equal.
  pose proof (first_normal_z_at_height _
                (NewQuad x0 y0 0 x3 y3 0 x2 y2 0 x1 y1 0) F) as E.
  pose proof (first_normal_z_at_height _
                (NewQuad x0 y0 0 x3 y3 0 x2 y2 0 x1 y1 0) F') as E'.
  f_equal. exact (eq_trans E (eq_sym E')).
Qed.

(** X11: an inset that is not positive (zero, negative or NaN) skips the
    deflate stage: the vertices are those of inset 0 and only the height
    of the top changes; and while that height is finite, [Kite] stops in
    [NewBox] exactly when it does for inset 0, also for a height that is
    zero or negative. *)
Theorem Kite_inset_not_positive (Sin Cos : float -> float)
    (loc : float * float) (rotationDegrees : Z) (inset : float) (reflect : bool) :
  (0 <? inset) = false ->
  Kite_vertices Sin Cos loc rotationDegrees inset reflect =
    Kite_vertices Sin Cos loc rotationDegrees 0 reflect /\
  (is_finite ((0.2 + inset) * unit) = true ->
   is_fatal (Kite Sin Cos loc rotationDegrees inset reflect) =
   is_fatal (Kite Sin Cos loc rotationDegrees 0 reflect)).
Proof.
  intros P. split.
  - unfold Kite_vertices. rewrite P. reflexivity.
  - intros F. apply Kite_fatal_height; [| exact F | reflexivity].
    unfold Kite_vertices. rewrite P. reflexivity.
Qed.

Lemma Kite_inset_not_positive_witness :
  is_fatal (Kite Cephes.sin Cephes.cos (0, 0) (-60) (-0.5) false) =
  is_fatal (Kite Cephes.sin Cephes.cos (0, 0) (-60) 0 false).
Proof.
  apply (Kite_inset_not_positive Cephes.sin Cephes.cos (0, 0) (-60) (-0.5) false);
    reflexivity.
Defined.

(** ** The solids of the table *)

Lemma all_solids_check_true :
  forallb (fun k =>
    forallb (fun ins =>
      forallb (fun rf => kite_solid_checks_all_trig k ins rf) [false; true])
      [0; inset]) kites = true.
Proof. vm_compute. reflexivity. Qed.

(** X12: for each of the 32 solids the generator can build (8
    placements, inset 0 and 0.03, reflected or not), in binary64: every
    one of the twelve normals has computed length within 1e-9 of 1 and
    points away from the centre of the eight vertices, the normals of the
    bottom facets have Z exactly -1 and those of the top facets exactly
    1, the eight vertices are distinct and no directed edge is walked
    twice. *)
Theorem generated_solids_outward (Sin Cos : float -> float) :
  accurate Sin Cos ->
  forall (reflect : bool) (k : kite) (ins : float),
    In k kites -> In ins [0; inset] ->
    exists b : Box float,
      Kite Sin Cos (pos k) (rot k) ins reflect = Ok b /\
      (forall f, In f (Box_Facets b) ->
         unit_length (Facet_Normal f) = true /\ points_outward b f = true) /\
      (forall f, In f (bottom_cap b) -> z (Facet_Normal f) = -1) /\
      (forall f, In f (top_cap b) -> z (Facet_Normal f) = 1) /\
      NoDup (Box_vertices b) /\ NoDup (Box_edges b).
Proof.
  intros A rf k ins Ik Ii.
  pose proof all_solids_check_true as X.
  rewrite forallb_forall in X. specialize (X k Ik).
  rewrite forallb_forall in X. specialize (X ins Ii).
  rewrite forallb_forall in X.
  assert (Ir : In rf [false; true]) by (destruct rf; simpl; auto).
  specialize (X rf Ir). unfold kite_solid_checks_all_trig in X.
  destruct (entry_for (rot k)) as [e |] eqn:E; [| discriminate X].
  destruct (accurate_entry_for Sin Cos _ _ A E) as [Ae Ea].
  assert (C : kite_solid_checks k ins rf Sin Cos = true).
  { apply (all_trig_sound Sin Cos e (kite_solid_checks k ins rf)
             (accurate_entry30 _ _ A) Ae); [| exact X].
    unfold kite_solid_checks.
    apply (reads_two_Kite e (rot k) (pos k) ins rf
             (fun r => match r with
                       | Ok b => solid_checks b
                       | Fatal _ => false
                       end)).
    exact Ea. }
  unfold kite_solid_checks in C.
  destruct (Kite Sin Cos (pos k) (rot k) ins rf) as [b | m]; [| discriminate C].
  exists b. split; [reflexivity |].
  unfold solid_checks in C.
  apply andb_true_iff in C. destruct C as [C D].
  apply andb_true_iff in C. destruct C as [C T].
  apply andb_true_iff in C. destruct C as [C B].
  rewrite forallb_forall in C, B, T.
  apply distinct_points_NoDup in D.
  split; [| split; [| split; [| split]]].
  - intros f I. apply andb_true_iff. exact (C f I).
  - intros f I. apply FloatAxioms.Leibniz.eqb_spec. exact (B f I).
  - intros f I. apply FloatAxioms.Leibniz.eqb_spec. exact (T f I).
  - exact D.
  - exact (NoDup_Box_edges b D).
Qed.

Lemma generated_solids_outward_witness :
  exists b : Box float,
    Kite Cephes.sin Cephes.cos (0, 0) (-60) 0.03 true = Ok b /\
    NoDup (Box_vertices b).
Proof.
  assert (A : accurate Cephes.sin Cephes.cos) by (vm_compute; reflexivity).
  destruct (generated_solids_outward Cephes.sin Cephes.cos A true
              (mkKite (0, 0) (-60)) 0.03) as [b [K [_ [_ [_ [N _]]]]]].
  - simpl. auto.
  - simpl. auto.
  - exists b. split; assumption.
Defined.

(** ** Where [main] can stop *)

Lemma Kite_fatal_message (Sin Cos : float -> float) loc d ins rf msg :
  Kite Sin Cos loc d ins rf = Fatal msg ->
  msg = bad_bottom_normal \/ msg = bad_top_normal.
Proof.
  destruct (Kite_unfold Sin Cos loc d ins rf) as [bot [top [_ ->]]].
  unfold NewBox.
  destruct (0 <=? first_normal_z bot); [intros E; injection E; auto |].
  destruct (first_normal_z top <=? 0); [intros E; injection E; auto |].
  discriminate.
Qed.

Section MainErrors.
Variables Sin Cos : float -> float.
Variable format_e6 : float -> string.

Lemma render_fatal (name : string) (k : kite) (ins : float) (rf : bool) (msg : string) :
  render Sin Cos format_e6 name k ins rf = Fatal msg ->
  Kite Sin Cos (pos k) (rot k) ins rf = Fatal msg.
Proof.
  unfold render.
  destruct (Kite Sin Cos (pos k) (rot k) ins rf) as [b | m]; cbn [bind];
    [discriminate | intros E; injection E as ->; reflexivity].
Qed.

Lemma main_loop_stops (rf : bool) (ks : list kite) :
  forall (i : nat) (out : list string) (stop : option string),
    main_loop Sin Cos format_e6 i ks rf = (out, stop) ->
    Forall (whole_block Sin Cos format_e6 ks rf) out /\
    (stop = None -> List.length out = (2 * List.length ks)%nat) /\
    (forall msg, stop = Some msg ->
       (List.length out < 2 * List.length ks)%nat /\
       (msg = bad_bottom_normal \/ msg = bad_top_normal)).
Proof.
  induction ks as [| k ks IH]; intros i out stop M; cbn [main_loop] in M.
  - injection M as <- <-. split; [constructor |]. split; [reflexivity |].
    intros msg E. discriminate E.
  - destruct (render Sin Cos format_e6 (kite_name i) k 0 rf) as [s0 | m0] eqn:R0.
    + destruct (render Sin Cos format_e6 (kite_inset_name i) k inset rf)
        as [s1 | m1] eqn:R1.
      * destruct (main_loop Sin Cos format_e6 (S i) ks rf) as [out' stop'] eqn:M'.
        injection M as <- <-.
        destruct (IH (S i) out' stop' M') as [W [L F]].
        split; [| split].
        -- constructor; [| constructor].
           ++ exists (kite_name i), k, 0, s0. cbn. auto.
           ++ exists (kite_inset_name i), k, inset, s1. cbn. auto.
           ++ eapply Forall_impl; [| exact W].
              intros s [name [k' [ins [blk [I [J [R E]]]]]]].
              exists name, k', ins, blk. cbn. auto.
        -- intros E. cbn [List.length]. rewrite (L E). lia.
        -- intros msg E. destruct (F msg E) as [L' D]. cbn [List.length].
           split; [lia | exact D].
      * injection M as <- <-. split; [| split].
        -- constructor; [| constructor].
           exists (kite_name i), k, 0, s0. cbn. auto.
        -- discriminate.
        -- intros msg E. injection E as <-. cbn [List.length]. split; [lia |].
           apply render_fatal in R1. eapply Kite_fatal_message. exact R1.
    + injection M as <- <-. split; [constructor |]. split; [discriminate |].
      intros msg E. injection E as <-. cbn [List.length]. split; [lia |].
      apply render_fatal in R0. eapply Kite_fatal_message. exact R0.
Qed.
End MainErrors.

(** X13: for any sine, cosine and formatter, [main] never writes part
    of a solid: everything written is whole blocks, each the complete
    text of one solid of the table; a run that is not stopped writes 16
    of them, and a run that is stopped has written fewer and stops with
    one of the two messages of [NewBox]. *)
Theorem main_stops_between_blocks
    (Sin Cos : float -> float) (format_e6 : float -> string) (reflect : bool) :
  let out := fst (main Sin Cos format_e6 reflect) in
  let stop := snd (main Sin Cos format_e6 reflect) in
  Forall (whole_block Sin Cos format_e6 kites reflect) out /\
  (stop = None -> List.length out = 16%nat) /\
  (forall msg, stop = Some msg ->
     (List.length out < 16)%nat /\
     (msg = bad_bottom_normal \/ msg = bad_top_normal)).
Proof.
  unfold main.
  destruct (main_loop Sin Cos format_e6 0 kites reflect) as [out stop] eqn:M.
  exact (main_loop_stops Sin Cos format_e6 reflect kites 0%nat out stop M).
Qed.

(** ** The lines of the output *)

Lemma count_newlines_append (s t : string) :
  count_newlines (s ++ t) = (count_newlines s + count_newlines t)%nat.
Proof. induction s as [| c s IH]; cbn; [reflexivity | rewrite IH; lia]. Qed.

Lemma count_newlines_fold {A : Type} (g : A -> string) (n : nat) (l : list A) :
  (forall a, In a l -> count_newlines (g a) = n) ->
  forall b, count_newlines (fold_left (fun b a => (b ++ g a)%string) l b) =
            (count_newlines b + n * List.length l)%nat.
Proof.
  induction l as [| a l IH]; intros G b; cbn [fold_left List.length].
  - lia.
  - rewrite IH by (intros a' I; apply G; right; exact I).
    rewrite count_newlines_append, (G a) by (left; reflexivity). lia.
Qed.

Section Lines.
Variables Sin Cos : float -> float.
Variable format_e6 : float -> string.
Hypothesis Hline : one_line format_e6.

Lemma Point_String_one_line (p : Point float) :
  count_newlines (Point_String format_e6 p) = 0%nat.
Proof.
  unfold Point_String. rewrite !count_newlines_append, !Hline. reflexivity.
Qed.

Lemma Facet_String_lines (f : Facet float) :
  count_newlines (Facet_String format_e6 f) = 7%nat.
Proof.
  unfold Facet_String. cbn [fold_left].
  rewrite !count_newlines_append, !Point_String_one_line. reflexivity.
Qed.

Lemma render_lines (name : string) (k : kite) (ins : float) (rf : bool) (s : string) :
  render Sin Cos format_e6 name k ins rf = Ok s ->
  count_newlines s = (count_newlines name + 98)%nat.
Proof.
  unfold render.
  destruct (Kite Sin Cos (pos k) (rot k) ins rf) as [b | m]; cbn [bind];
    [| discriminate].
  intros E. injection E as E. rewrite <- E. clear E.
  assert (G : forall f, In f (Box_Facets b) ->
                count_newlines (Facet_String format_e6 f ++ nl) = 8%nat).
  { intros f _. rewrite count_newlines_append, Facet_String_lines. reflexivity. }
  pose proof (count_newlines_fold
                (fun f => (Facet_String format_e6 f ++ nl)%string) 8
                (Box_Facets b) G ("solid " ++ name ++ nl ++ nl)%string) as X.
  etransitivity; [exact X |].
  rewrite !count_newlines_append. cbn. lia.
Qed.
End Lines.

Lemma digit_char_not_newline (v : Z) :
  Ascii.eqb (Fmt.digit_char v) (ascii_of_nat 10) = false.
Proof.
  pose proof (is_digit_digit_char v) as D.
  destruct (Fmt.digit_char v) as [[] [] [] [] [] [] [] []]; try reflexivity;
    discriminate D.
Qed.

Lemma Fmt_one_line : one_line Fmt.format_e6.
Proof.
  intros c. unfold Fmt.format_e6.
  assert (S : forall neg n k, count_newlines (Fmt.sci_text neg n k) = 0%nat).
  { intros neg n k. unfold Fmt.sci_text.
    destruct neg, (Z.ltb k 0), (Z.ltb (Z.abs k) 100); cbn [count_newlines];
      rewrite !digit_char_not_newline; reflexivity. }
  destruct (Prim2SF c) as [s | s | | s m e]; try apply S.
  - destruct s; reflexivity.
  - reflexivity.
  - cbv zeta. match goal with |- context [if ?b then _ else _] => destruct b end;
      apply S.
Qed.

(** X14: when the formatter writes no newline, the text of a facet has
    7 newlines (it is 8 lines once [render] ends it), and the text that
    [render] returns for a solid named kite0 .. kite7 or kite-inset0 ..
    kite-inset7 has 98 newlines: the header line, an empty line and 12
    records of 8 lines. *)
Theorem output_line_counts
    (Sin Cos : float -> float) (format_e6 : float -> string) :
  one_line format_e6 ->
  (forall f : Facet float, count_newlines (Facet_String format_e6 f) = 7%nat) /\
  (forall (i : nat) (k : kite) (ins : float) (rf : bool) (s : string),
     (i < 8)%nat ->
     (render Sin Cos format_e6 (kite_name i) k ins rf = Ok s \/
      render Sin Cos format_e6 (kite_inset_name i) k ins rf = Ok s) ->
     count_newlines s = 98%nat).
Proof.
  intros H. split.
  - intros f. apply Facet_String_lines. exact H.
  - intros i k ins rf s Hi [R | R];
      rewrite (render_lines Sin Cos format_e6 H _ k ins rf s R);
      do 8 (destruct i as [| i]; [reflexivity |]); lia.
Qed.

Lemma output_line_counts_witness :
  count_newlines
    (Facet_String Fmt.format_e6 (fst (Quad_Facets sample_bottom))) = 7%nat.
Proof.
  apply (output_line_counts Cephes.sin Cephes.cos Fmt.format_e6 Fmt_one_line).
Defined.
